(** * new-cy-framework: helper contracts of the Cypress test framework

    A shallow embedding of the TypeScript helpers of the repository:

    - [ApiHelper]      cypress/utils/api-helper.ts (assertion helpers over a response)
    - [DbTasks]        the Node-side tasks [executeQuery] / [executeStoredProcedure]
    - [DbHelper]       the browser-side static class [DbHelper]
    - [CypressConfig]  cypress.config.ts (environment configuration resolution)

    Third-party code is not part of the repository and is modelled as an
    interface: the mssql client ([Mssql.Client]), the module loader
    ([require]) and the slice of chai used by the helpers ([Chai]). *)

From stdpp Require Import gmap strings list pretty.
From Stdlib Require Import ZArith String Ascii.

Local Open Scope string_scope.

(* ================================================================== *)
(** ** JavaScript values, errors and completions *)
(* ================================================================== *)

Module Js.

(** Run-time values of type [any].  Numbers are restricted to the integers
    (status codes, row counts) plus [NaN]; objects and arrays carry the
    identity [id] of their allocation, which is what [===] compares. *)
#[warnings="-register-all"]
Inductive JsVal : Type :=
  | JUndefined
  | JNull
  | JBool (b : bool)
  | JNum (n : Z)
  | JNaN
  | JStr (s : string)
  | JObject (id : positive) (props : gmap string JsVal)
  | JArray (id : positive) (elems : list JsVal).

(** The [typeof]-like tag of a value (arrays and [null] are told apart
    from plain objects, as chai's type detection does). *)
Inductive JsType := TUndefined | TNull | TBoolean | TNumber | TString | TObject | TArray.

Definition type_of (v : JsVal) : JsType :=
  match v with
  | JUndefined => TUndefined
  | JNull => TNull
  | JBool _ => TBoolean
  | JNum _ | JNaN => TNumber
  | JStr _ => TString
  | JObject _ _ => TObject
  | JArray _ _ => TArray
  end.

(** [a === b]: no coercion; primitives by value, [NaN] equal to nothing,
    objects and arrays by identity. *)
Definition strict_equals (a b : JsVal) : bool :=
  match a, b with
  | JUndefined, JUndefined => true
  | JNull, JNull => true
  | JBool x, JBool y => Bool.eqb x y
  | JNum x, JNum y => Z.eqb x y
  | JStr x, JStr y => String.eqb x y
  | JObject i _, JObject j _ => Pos.eqb i j
  | JArray i _, JArray j _ => Pos.eqb i j
  | _, _ => false
  end.

(** Truthiness of an optional string argument ([if (expectedValue)]):
    [undefined] and the empty string are falsy. *)
Definition truthy_string (o : option string) : bool :=
  match o with
  | None => false
  | Some s => negb (String.eqb s "")
  end.

(** [a || b] on an optional string with a string default. *)
Definition or_string (o : option string) (d : string) : string :=
  if truthy_string o then default d o else d.

(** [String.prototype.toLowerCase], on the ASCII range (header names and
    environment names are ASCII). *)
Definition lower_ascii (c : ascii) : ascii :=
  let n := nat_of_ascii c in
  if (65 <=? n)%nat && (n <=? 90)%nat then ascii_of_nat (n + 32) else c.

Fixpoint toLowerCase (s : string) : string :=
  match s with
  | EmptyString => EmptyString
  | String c r => String (lower_ascii c) (toLowerCase r)
  end.

(** [hay.indexOf(needle) !== -1] *)
Fixpoint includes (hay needle : string) : bool :=
  String.prefix needle hay
  || match hay with
     | EmptyString => false
     | String _ r => includes r needle
     end.

(** Thrown values: [Error] objects, of which [name] and [message] matter. *)
Record JsError := mkError { err_name : string; err_message : string }.

Definition Error (msg : string) : JsError := mkError "Error" msg.
Definition TypeError (msg : string) : JsError := mkError "TypeError" msg.

(** The completion of a statement or call: a normal value or a throw. *)
Inductive Completion (A : Type) : Type :=
  | Normal (a : A)
  | Throw (e : JsError).
Arguments Normal {A} a.
Arguments Throw {A} e.

Definition andThen {A B} (c : Completion A) (k : A -> Completion B) : Completion B :=
  match c with
  | Normal a => k a
  | Throw e => Throw e
  end.

(** [obj[name]] for a value of type [any].  Own properties only: the
    members inherited from the built-in prototypes are not modelled.
    The own properties of an array and of a string are [length] and the
    indices, written in decimal. *)
Fixpoint array_index_from (i : nat) (elems : list JsVal) (name : string) : option JsVal :=
  match elems with
  | [] => None
  | x :: rest =>
      if String.eqb (pretty i) name then Some x else array_index_from (S i) rest name
  end.

Fixpoint string_index_from (i : nat) (s : string) (name : string) : option JsVal :=
  match s with
  | EmptyString => None
  | String c rest =>
      if String.eqb (pretty i) name then Some (JStr (String c EmptyString))
      else string_index_from (S i) rest name
  end.

Definition get_property (obj : JsVal) (name : string) : Completion JsVal :=
  match obj with
  | JUndefined => Throw (TypeError "Cannot read properties of undefined")
  | JNull => Throw (TypeError "Cannot read properties of null")
  | JObject _ props => Normal (default JUndefined (props !! name))
  | JArray _ elems =>
      if String.eqb name "length" then Normal (JNum (Z.of_nat (List.length elems)))
      else Normal (default JUndefined (array_index_from 0 elems name))
  | JStr s =>
      if String.eqb name "length" then Normal (JNum (Z.of_nat (String.length s)))
      else Normal (default JUndefined (string_index_from 0 s name))
  | JBool _ | JNum _ | JNaN => Normal JUndefined
  end.

End Js.

(* ================================================================== *)
(** ** The slice of chai's [expect] interface that the helpers use *)
(* ================================================================== *)

Module Chai.
Import Js.

(** Only the custom message given to [expect(value, message)] is kept in
    the error; chai's generated text is not reproduced. *)
Definition AssertionError (label : string) : JsError := mkError "AssertionError" label.

Definition chai_assert (cond : bool) (label : string) : Completion unit :=
  if cond then Normal tt else Throw (AssertionError label).

(** [expect(actual, label).to.eq(expected)]: strict equality. *)
Definition to_eq (actual expected : JsVal) (label : string) : Completion unit :=
  chai_assert (strict_equals actual expected) label.

(** [expect(b, label).to.be.true] *)
Definition to_be_true (actual : JsVal) (label : string) : Completion unit :=
  chai_assert (strict_equals actual (JBool true)) label.

(** [expect(actual, label).to.be.greaterThan(n)]: the target has to be a
    number, and then [actual > n]. *)
Definition to_be_greaterThan (actual : JsVal) (n : Z) (label : string) : Completion unit :=
  match actual with
  | JNum x => chai_assert (Z.ltb n x) label
  | _ => Throw (AssertionError label)
  end.

(** [expect(obj).to.have.property(name)] on a string-keyed record: [name]
    is one of its keys (the members every object inherits from
    [Object.prototype] are not modelled). *)
Definition to_have_property {V} (obj : gmap string V) (name : string) : Completion unit :=
  chai_assert (bool_decide (is_Some (obj !! name))) "".

(** [expect(value).to.include(needle)]: substring test on a string; the
    target [undefined] is rejected. *)
Definition to_include (value : option string) (needle : string) : Completion unit :=
  match value with
  | Some hay => chai_assert (includes hay needle) ""
  | None => Throw (AssertionError "")
  end.

End Chai.

(* ================================================================== *)
(** ** cypress/utils/api-helper.ts *)
(* ================================================================== *)

Module ApiHelper.
Import Js.

(** interface ApiResponse: [headers] is a [Record<string, string>]. *)
Record ApiResponse := {
  status : JsVal;
  body : JsVal;
  headers : gmap string string;
  duration : JsVal;
}.

(** static verifyStatusCode(response, expectedStatus): void *)
Definition verifyStatusCode (response : ApiResponse) (expectedStatus : JsVal) : Completion unit :=
  Chai.to_eq (status response) expectedStatus "".

(** static verifyBodyPropertyValue(response, property, value): void *)
Definition verifyBodyPropertyValue (response : ApiResponse) (property : string) (value : JsVal)
  : Completion unit :=
  andThen (get_property (body response) property) (fun actual =>
  Chai.to_eq actual value "").

(** static verifyHeader(response, headerName, expectedValue?): void
    (the same body in both revisions of the helper) *)
Definition verifyHeader (response : ApiResponse) (headerName : string)
    (expectedValue : option string) : Completion unit :=
  andThen (Chai.to_have_property (headers response) (toLowerCase headerName)) (fun _ =>
  if truthy_string expectedValue then
    Chai.to_include (headers response !! toLowerCase headerName) (default "" expectedValue)
  else Normal tt).

End ApiHelper.

(* ================================================================== *)
(** ** Stateful code: state passing with completions *)
(* ================================================================== *)

Module Eff.
Import Js.

(** A computation over a mutable state [St] that returns or throws. *)
Definition M (St A : Type) : Type := St -> Completion A * St.

Definition ret {St A} (a : A) : M St A := fun s => (Normal a, s).

Definition throw {St A} (e : JsError) : M St A := fun s => (Throw e, s).

Definition bind {St A B} (m : M St A) (k : A -> M St B) : M St B :=
  fun s =>
    match m s with
    | (Normal a, s') => k a s'
    | (Throw e, s') => (Throw e, s')
    end.

Definition get {St} : M St St := fun s => (Normal s, s).

Definition modify {St} (f : St -> St) : M St unit := fun s => (Normal tt, f s).

Definition lift_completion {St A} (c : Completion A) : M St A := fun s => (c, s).

(** [try { body } catch (error) { handler }] *)
Definition try_catch {St A} (body : M St A) (handler : JsError -> M St A) : M St A :=
  fun s =>
    match body s with
    | (Throw e, s') => handler e s'
    | (Normal a, s') => (Normal a, s')
    end.

(** [try { body } finally { cleanup }]: the cleanup runs whatever the
    completion of the body; if the cleanup throws, its exception replaces
    the completion of the body. *)
Definition try_finally {St A} (body : M St A) (cleanup : M St unit) : M St A :=
  fun s =>
    let '(c, s') := body s in
    match cleanup s' with
    | (Throw e, s'') => (Throw e, s'')
    | (Normal _, s'') => (c, s'')
    end.

Declare Scope eff_scope.
Delimit Scope eff_scope with eff.
Notation "'let!' x ':=' m 'in' k" := (bind m (fun x => k))
  (at level 10, x name, m at level 100, k at level 200) : eff_scope.
Notation "'do!' m 'in' k" := (bind m (fun _ => k))
  (at level 10, m at level 100, k at level 200) : eff_scope.

End Eff.

(* ================================================================== *)
(** ** The mssql client, as the tasks see it *)
(* ================================================================== *)

Module Mssql.
Import Js.

(** interface DbConfig (declared alike by the helper and by the tasks) *)
Record DbOptions := {
  encrypt : option bool;
  trustServerCertificate : option bool;
}.

Record DbConfig := {
  server : string;
  database : string;
  user : string;
  password : string;
  port : option Z;
  options : option DbOptions;
}.

(** A connection pool is known by its handle. *)
Definition ConnectionPool := positive.

(** A row of a record set. *)
Abbreviation Row := (gmap string JsVal).

(** The result of a request: [recordset] is [undefined] when the
    statement produced no rows set. *)
Record IResult := {
  recordset : option (list Row);
  rowsAffected : list Z;
}.

(** [pool.request()]: a request bound to its pool, with the inputs
    added so far.  Adding an input is local to the request (it may
    throw, it does no I/O). *)
Record Request := {
  req_pool : ConnectionPool;
  req_inputs : list (string * JsVal);
}.

(** The client over its own state [S]: every call may throw. *)
Record Client (S : Type) := {
  connect : DbConfig -> S -> Completion ConnectionPool * S;
  query : Request -> string -> S -> Completion IResult * S;
  input : Request -> string -> JsVal -> Completion unit;
  execute : Request -> string -> S -> Completion IResult * S;
  close : ConnectionPool -> S -> Completion unit * S;
}.
Arguments connect {S} _ _ _.
Arguments query {S} _ _ _ _.
Arguments input {S} _ _ _ _.
Arguments execute {S} _ _ _ _.
Arguments close {S} _ _ _.

(** The round trips made through the client, in order. *)
Inductive Event :=
  | EvConnect (config : DbConfig) (opened : option ConnectionPool)
  | EvQuery (pool : ConnectionPool) (sql : string)
  | EvExecute (pool : ConnectionPool) (procedureName : string)
              (inputs : list (string * JsVal))
  | EvClose (pool : ConnectionPool).

(** The Node process: the client's state, the calls made so far and the
    lines written by [console.error]. *)
Record World (S : Type) := {
  driver : S;
  trace : list Event;
  console : list (string * JsError);
}.
Arguments driver {S} _.
Arguments trace {S} _.
Arguments console {S} _.

End Mssql.

(* ================================================================== *)
(** ** Database tasks ([executeQuery], [executeStoredProcedure]) *)
(* ================================================================== *)

Module DbTasks.
Import Js Eff Mssql.
Local Open Scope eff_scope.

(** interface DbResult *)
Record DbResult := {
  success : bool;
  data : option (list Row);
  rowsAffected : option (list Z);
  error : option string;
}.

(** The frame of a task call: its local [let pool;] and the world. *)
Record Frame (S : Type) := {
  pool : option ConnectionPool;
  world : World S;
}.
Arguments pool {S} _.
Arguments world {S} _.

Section Tasks.
Context {S : Type} (sql : Client S).

Definition opened_pool (c : Completion ConnectionPool) : option ConnectionPool :=
  match c with Normal p => Some p | Throw _ => None end.

(** [await sql.connect(config)] *)
Definition sql_connect (config : DbConfig) : M (Frame S) ConnectionPool :=
  fun f =>
    let '(c, s') := connect sql config (driver (world f)) in
    (c, {| pool := pool f;
           world := {| driver := s';
                       trace := trace (world f) ++ [EvConnect config (opened_pool c)];
                       console := console (world f) |} |}).

(** [pool = ...] *)
Definition set_pool (p : ConnectionPool) : M (Frame S) unit :=
  modify (fun f => {| pool := Some p; world := world f |}).

(** [pool.request()] *)
Definition pool_request (p : ConnectionPool) : Request :=
  {| req_pool := p; req_inputs := [] |}.

(** [await request.query(query)] *)
Definition request_query (request : Request) (query : string) : M (Frame S) IResult :=
  fun f =>
    let '(c, s') := Mssql.query sql request query (driver (world f)) in
    (c, {| pool := pool f;
           world := {| driver := s';
                       trace := trace (world f) ++ [EvQuery (req_pool request) query];
                       console := console (world f) |} |}).

(** [request.input(key, value)]: on success the request holds one
    more input. *)
Definition request_input (request : Request) (key : string) (value : JsVal)
  : Completion Request :=
  andThen (input sql request key value) (fun _ =>
  Normal {| req_pool := req_pool request;
            req_inputs := req_inputs request ++ [(key, value)] |}).

(** [await request.execute(procedureName)] *)
Definition request_execute (request : Request) (procedureName : string)
  : M (Frame S) IResult :=
  fun f =>
    let '(c, s') := execute sql request procedureName (driver (world f)) in
    (c, {| pool := pool f;
           world := {| driver := s';
                       trace := trace (world f)
                                  ++ [EvExecute (req_pool request) procedureName
                                        (req_inputs request)];
                       console := console (world f) |} |}).

(** [await pool.close()] *)
Definition pool_close (p : ConnectionPool) : M (Frame S) unit :=
  fun f =>
    let '(c, s') := close sql p (driver (world f)) in
    (c, {| pool := pool f;
           world := {| driver := s';
                       trace := trace (world f) ++ [EvClose p];
                       console := console (world f) |} |}).

(** [console.error(label, error)] *)
Definition console_error (label : string) (e : JsError) : M (Frame S) unit :=
  modify (fun f => {| pool := pool f;
                      world := {| driver := driver (world f);
                                  trace := trace (world f);
                                  console := console (world f) ++ [(label, e)] |} |}).

(** [{ success: true, data: result.recordset, rowsAffected: result.rowsAffected }] *)
Definition success_result (result : IResult) : DbResult :=
  {| success := true;
     data := recordset result;
     rowsAffected := Some (Mssql.rowsAffected result);
     error := None |}.

(** [{ success: false, error: error.message }] *)
Definition failure_result (e : JsError) : DbResult :=
  {| success := false;
     data := None;
     rowsAffected := None;
     error := Some (err_message e) |}.

(** [finally { if (pool) { await pool.close(); } }] *)
Definition close_if_open : M (Frame S) unit :=
  let! f := get in
  match pool f with
  | Some p => pool_close p
  | None => ret tt
  end.

(** Runs the body of a task in a fresh frame ([let pool;]). *)
Definition in_frame {A} (body : M (Frame S) A) : M (World S) A :=
  fun w =>
    let '(c, f) := body {| pool := None; world := w |} in
    (c, world f).

(** async function executeQuery({ query, config }) *)
Definition executeQuery (query : string) (config : DbConfig) : M (World S) DbResult :=
  in_frame
    (try_finally
       (try_catch
          (let! p := sql_connect config in
           do! set_pool p in
           let! result := request_query (pool_request p) query in
           ret (success_result result))
          (fun error =>
             do! console_error "Database query error:" error in
             ret (failure_result error)))
       close_if_open).

(** [Object.keys(parameters)] and [parameters[key]] on the parameter
    object, given as its entries in enumeration order. *)
Definition Object_keys (parameters : list (string * JsVal)) : list string :=
  map fst parameters.

Fixpoint parameter (parameters : list (string * JsVal)) (key : string) : JsVal :=
  match parameters with
  | [] => JUndefined
  | (k, v) :: rest => if String.eqb k key then v else parameter rest key
  end.

(** [keys.forEach((key) => { request.input(key, parameters[key]); })] *)
Fixpoint add_parameters (request : Request) (keys : list string)
    (parameters : list (string * JsVal)) : Completion Request :=
  match keys with
  | [] => Normal request
  | key :: rest =>
      andThen (request_input request key (parameter parameters key)) (fun request' =>
      add_parameters request' rest parameters)
  end.

(** async function executeStoredProcedure({ procedureName, parameters = {}, config }) *)
Definition executeStoredProcedure (procedureName : string)
    (parameters : option (list (string * JsVal))) (config : DbConfig)
  : M (World S) DbResult :=
  let parameters := default [] parameters in
  in_frame
    (try_finally
       (try_catch
          (let! p := sql_connect config in
           do! set_pool p in
           let! request := lift_completion
                             (add_parameters (pool_request p) (Object_keys parameters)
                                parameters) in
           let! result := request_execute request procedureName in
           ret (success_result result))
          (fun error =>
             do! console_error "Stored procedure error:" error in
             ret (failure_result error)))
       close_if_open).

(** The handlers that [registerDatabaseTasks(on)] registers. *)
Record TaskHandlers := {
  dbQuery : string -> DbConfig -> M (World S) DbResult;
  dbStoredProcedure :
    string -> option (list (string * JsVal)) -> DbConfig -> M (World S) DbResult;
}.

Definition registerDatabaseTasks : TaskHandlers :=
  {| dbQuery := executeQuery;
     dbStoredProcedure := executeStoredProcedure |}.

End Tasks.

(** The round trips of one task call that fit the life of one pool:
    a failed connect and nothing else, or a connect that opens [p], work
    on [p] only, and the close of [p] at the end. *)
Definition works_on (p : ConnectionPool) (ev : Event) : Prop :=
  match ev with
  | EvQuery p' _ | EvExecute p' _ _ => p' = p
  | EvConnect _ _ | EvClose _ => False
  end.

Inductive pool_lifecycle (config : DbConfig) : list Event -> Prop :=
  | lifecycle_not_opened :
      pool_lifecycle config [EvConnect config None]
  | lifecycle_opened (p : ConnectionPool) (work : list Event) :
      Forall (works_on p) work ->
      pool_lifecycle config (EvConnect config (Some p) :: work ++ [EvClose p]).

End DbTasks.

(* ================================================================== *)
(** ** Cypress commands: [cy.task] and [.then] *)
(* ================================================================== *)

Module Cy.
Import Js Eff Mssql.

(** A queued command: run later by the runner against the Node process,
    it yields its subject or fails the test. *)
Definition Chainable (S A : Type) : Type := M (World S) A.

Definition CypressError (taskName : string) (e : JsError) : JsError :=
  mkError "CypressError"
    ("cy.task('" ++ taskName ++ "') failed with the following error: " ++ err_message e).

(** [cy.task(name, arg)] with [handler] the registered task applied to
    [arg]: the value the task resolves to is yielded, a rejection fails
    the command. *)
Definition task {S A} (name : string) (handler : M (World S) A) : Chainable S A :=
  fun w =>
    match handler w with
    | (Normal a, w') => (Normal a, w')
    | (Throw e, w') => (Throw (CypressError name e), w')
    end.

(** [subject.then(callback)]: the callback runs on the yielded subject;
    what it throws fails the test. *)
Definition then_ {S A B} (subject : Chainable S A) (callback : A -> Completion B)
  : Chainable S B :=
  fun w =>
    match subject w with
    | (Normal a, w') => (callback a, w')
    | (Throw e, w') => (Throw e, w')
    end.

End Cy.

(* ================================================================== *)
(** ** The static class [DbHelper] *)
(* ================================================================== *)

Module DbHelper.
Import Js Eff Mssql DbTasks Cy.
Local Open Scope eff_scope.

(** [private static config: DbConfig;], [undefined] until it is set. *)
Record Static := { config : option DbConfig }.

Definition initial : Static := {| config := None |}.

(** static setConfig(config: DbConfig): void *)
Definition setConfig (config : DbConfig) : M Static unit :=
  modify (fun _ => {| config := Some config |}).

(** private static getConfig(): DbConfig *)
Definition getConfig : M Static DbConfig :=
  let! this := get in
  match config this with
  | None => throw (Error "Database configuration not set. Call DbHelper.setConfig() first.")
  | Some c => ret c
  end.

Section Helper.
(** The task handlers registered with the runner, which [cy.task] looks up
    by name. *)
Context {S : Type} (tasks : TaskHandlers (S := S)).

(** static query(query, customConfig?) *)
Definition query (query : string) (customConfig : option DbConfig)
  : M Static (Chainable S DbResult) :=
  let! config := match customConfig with
                 | Some c => ret c
                 | None => getConfig
                 end in
  ret (task "dbQuery" (dbQuery tasks query config)).

(** static executeStoredProcedure(procedureName, parameters?, customConfig?) *)
Definition executeStoredProcedure (procedureName : string)
    (parameters : option (list (string * JsVal))) (customConfig : option DbConfig)
  : M Static (Chainable S DbResult) :=
  let! config := match customConfig with
                 | Some c => ret c
                 | None => getConfig
                 end in
  ret (task "dbStoredProcedure" (dbStoredProcedure tasks procedureName parameters config)).

(** [result.data![0].count] *)
Definition first_row_count (result : DbResult) : Completion JsVal :=
  match data result with
  | None => Throw (TypeError "Cannot read properties of undefined (reading '0')")
  | Some [] => Throw (TypeError "Cannot read properties of undefined (reading 'count')")
  | Some (row :: _) => Normal (default JUndefined (row !! "count"))
  end.

Definition count_query (tableName whereClause : string) : string :=
  "SELECT COUNT(*) as count FROM " ++ tableName ++ " WHERE " ++ whereClause.

(** The callback of [verifyRecordExists]:
    [expect(result.success, ...).to.be.true;
     expect(result.data![0].count, ...).to.be.greaterThan(0);] *)
Definition expect_record (tableName : string) (result : DbResult) : Completion unit :=
  andThen (Chai.to_be_true (JBool (success result)) "Database query should succeed")
    (fun _ =>
  andThen (first_row_count result) (fun count =>
  Chai.to_be_greaterThan count 0 ("Record should exist in " ++ tableName))).

(** The callback of [verifyRecordNotExists]:
    [expect(result.success, ...).to.be.true;
     expect(result.data![0].count, ...).to.eq(0);] *)
Definition expect_no_record (tableName : string) (result : DbResult) : Completion unit :=
  andThen (Chai.to_be_true (JBool (success result)) "Database query should succeed")
    (fun _ =>
  andThen (first_row_count result) (fun count =>
  Chai.to_eq count (JNum 0) ("Record should not exist in " ++ tableName))).

(** static verifyRecordExists(tableName, whereClause) *)
Definition verifyRecordExists (tableName whereClause : string)
  : M Static (Chainable S unit) :=
  let query_ := count_query tableName whereClause in
  let! subject := query query_ None in
  ret (then_ subject (expect_record tableName)).

(** static verifyRecordNotExists(tableName, whereClause) *)
Definition verifyRecordNotExists (tableName whereClause : string)
  : M Static (Chainable S unit) :=
  let query_ := count_query tableName whereClause in
  let! subject := query query_ None in
  ret (then_ subject (expect_no_record tableName)).

End Helper.
End DbHelper.

(* ================================================================== *)
(** ** cypress.config.ts: the environment configuration *)
(* ================================================================== *)

Module CypressConfig.
Import Js Eff.
Local Open Scope eff_scope.

(** The Node process that evaluates the configuration file: the lines
    written by [console.warn] and the identity of the next object. *)
Record Node := {
  warnings : list string;
  next_id : positive;
}.

Section Config.
(** [require(path)]: the exports of the module, or the load error. *)
Variable require : string -> Completion JsVal.

(** [const environment = process.env.ENV || 'dev';] *)
Definition environment (ENV : option string) : string := or_string ENV "dev".

Definition console_warn (line : string) : M Node unit :=
  modify (fun n => {| warnings := warnings n ++ [line]; next_id := next_id n |}).

(** An object literal: a new object. *)
Definition object_literal (props : gmap string JsVal) : M Node JsVal :=
  fun n =>
    (Normal (JObject (next_id n) props),
     {| warnings := warnings n; next_id := Pos.succ (next_id n) |}).

(** [let envConfig; try { envConfig = require(...).default; } catch (error) { ... }] *)
Definition envConfig (ENV : option string) : M Node JsVal :=
  try_catch
    (lift_completion
       (andThen (require ("./cypress/config/" ++ environment ENV ++ ".config.ts"))
                (fun exports => get_property exports "default")))
    (fun error =>
       do! console_warn ("Could not load config for environment: " ++ environment ENV
                         ++ ", using default config") in
       object_literal {[ "baseUrl" := JStr "https://example.cypress.io" ]}).

End Config.
End CypressConfig.

(* ================================================================== *)
(** ** Sample responses, configurations and clients *)
(* ================================================================== *)

Module Fixtures.
Import Js ApiHelper Mssql.

Definition response_404 : ApiResponse :=
  {| status := JNum 404; body := JNull; headers := ∅; duration := JNum 12 |}.

(** A response whose body is [{ id: "1" }]. *)
Definition response_id_string : ApiResponse :=
  {| status := JNum 200;
     body := JObject 1 {[ "id" := JStr "1" ]};
     headers := {[ "content-type" := "application/json; charset=utf-8" ]};
     duration := JNum 12 |}.

(** A response whose header record has a capitalised key. *)
Definition response_capitalised_key : ApiResponse :=
  {| status := JNum 200;
     body := JNull;
     headers := {[ "Content-Type" := "application/json" ]};
     duration := JNum 12 |}.

(** The configuration of the database example test. *)
Definition localConfig : DbConfig :=
  {| server := "localhost";
     database := "TestDB";
     user := "sa";
     password := "YourPassword123";
     port := Some 1433%Z;
     options := Some {| encrypt := Some false; trustServerCertificate := Some true |} |}.

Definition qaConfig : DbConfig :=
  {| server := "qa-server.example.com";
     database := "TestDB_QA";
     user := "qa_user";
     password := "QAPassword123";
     port := Some 1433%Z;
     options := Some {| encrypt := Some true; trustServerCertificate := Some false |} |}.

(** A client that answers every connect, request and close the same way;
    its state counts the round trips. *)
Definition scripted (connected : Completion ConnectionPool) (answer : Completion IResult)
    (bound : Completion unit) (closed : Completion unit) : Client nat :=
  {| connect := fun _ n => (connected, S n);
     query := fun _ _ n => (answer, S n);
     input := fun _ _ _ => bound;
     execute := fun _ _ n => (answer, S n);
     close := fun _ n => (closed, S n) |}.

Definition count_rows (n : Z) : IResult :=
  {| recordset := Some [ {[ "count" := JNum n ]} ]; rowsAffected := [1%Z] |}.

Definition invalid_object : JsError := Error "Invalid object name 'Users'.".
Definition unreachable : JsError := Error "Failed to connect to localhost:1433".
Definition close_failed : JsError := Error "Cannot close a pool while it is connecting".

Definition healthy (n : Z) : Client nat :=
  scripted (Normal 7%positive) (Normal (count_rows n)) (Normal tt) (Normal tt).

Definition bad_sql : Client nat :=
  scripted (Normal 7%positive) (Throw invalid_object) (Normal tt) (Normal tt).

Definition offline : Client nat :=
  scripted (Throw unreachable) (Throw invalid_object) (Normal tt) (Normal tt).

Definition start : World nat := {| driver := 0; trace := []; console := [] |}.

(** A module loader that knows cypress/config/qa.config.ts only, with the
    export the README shows for it. *)
Definition qa_module : JsVal :=
  JObject 20 {[ "default" :=
    JObject 21 (<[ "baseUrl" := JStr "https://qa.yourapp.com" ]>
                {[ "env" := JObject 22 {[ "environment" := JStr "qa" ]} ]}) ]}.

Definition require_qa_only (path : string) : Completion JsVal :=
  if String.eqb path "./cypress/config/qa.config.ts" then Normal qa_module
  else Throw (Error ("Cannot find module '" ++ path ++ "'")).

Definition fresh_node : CypressConfig.Node :=
  {| CypressConfig.warnings := []; CypressConfig.next_id := 1 |}.

End Fixtures.

(* ================================================================== *)
(** ** cypress/config/database.config.example.ts *)
(* ================================================================== *)

Module DatabaseConfig.
Import Js Mssql.

Definition devDbConfig : DbConfig :=
  {| server := "localhost";
     database := "TestDB";
     user := "sa";
     password := "YourPassword123";
     port := Some 1433%Z;
     options := Some {| encrypt := Some false; trustServerCertificate := Some true |} |}.

Definition qaDbConfig : DbConfig :=
  {| server := "qa-server.example.com";
     database := "TestDB_QA";
     user := "qa_user";
     password := "QAPassword123";
     port := Some 1433%Z;
     options := Some {| encrypt := Some true; trustServerCertificate := Some false |} |}.

Definition stagingDbConfig : DbConfig :=
  {| server := "staging-server.example.com";
     database := "TestDB_Staging";
     user := "staging_user";
     password := "StagingPassword123";
     port := Some 1433%Z;
     options := Some {| encrypt := Some true; trustServerCertificate := Some false |} |}.

(** export function getDbConfig(environment: string = 'dev'): DbConfig;
    the default applies to a missing argument only. *)
Definition getDbConfig (environment : option string) : DbConfig :=
  let environment := default "dev" environment in
  let selector := toLowerCase environment in
  if String.eqb selector "qa" then qaDbConfig
  else if String.eqb selector "staging" then stagingDbConfig
  else devDbConfig.

End DatabaseConfig.

(* ================================================================== *)
(** ** [cy.request] and the request helpers of [ApiHelper] *)
(* ================================================================== *)

Module CyRequest.
Import Js Eff.

(** The options object the helpers pass to [cy.request]. *)
Record RequestOptions := {
  method : string;
  url : string;
  body : option JsVal;
  headers : gmap string string;
  failOnStatusCode : bool;
}.

(** The server behind the transport, over its own state [N]: it answers a
    request with a response, or the request fails on the network. *)
Definition Network (N : Type) : Type :=
  RequestOptions -> N -> Completion ApiHelper.ApiResponse * N.

(** The status codes [cy.request] accepts when [failOnStatusCode] is set:
    2xx and 3xx. *)
Definition ok_status (status : JsVal) : bool :=
  match status with
  | JNum n => (200 <=? n)%Z && (n <? 400)%Z
  | _ => false
  end.

(** [cy.request(options)]: a network failure fails the command; a response
    is yielded unless [failOnStatusCode] is set and its status is neither
    2xx nor 3xx. *)
Definition request {N} (net : Network N) (options : RequestOptions)
  : M N ApiHelper.ApiResponse :=
  fun s =>
    match net options s with
    | (Normal response, s') =>
        if failOnStatusCode options && negb (ok_status (ApiHelper.status response))
        then (Throw (mkError "CypressError" "cy.request() failed on status code"), s')
        else (Normal response, s')
    | (Throw e, s') =>
        (Throw (mkError "CypressError"
                  ("cy.request() failed trying to load: " ++ err_message e)), s')
    end.

End CyRequest.

Module ApiRequests.
Import Js Eff CyRequest.

Section Requests.
Context {N : Type} (net : Network N).

(** static get(url, headers?) *)
Definition get (url : string) (headers : option (gmap string string))
  : M N ApiHelper.ApiResponse :=
  request net {| method := "GET";
                 url := url;
                 body := None;
                 headers := default ∅ headers;
                 failOnStatusCode := false |}.

(** static post(url, body, headers?) *)
Definition post (url : string) (body : JsVal) (headers : option (gmap string string))
  : M N ApiHelper.ApiResponse :=
  request net {| method := "POST";
                 url := url;
                 body := Some body;
                 headers := default ∅ headers;
                 failOnStatusCode := false |}.

(** static put(url, body, headers?) *)
Definition put (url : string) (body : JsVal) (headers : option (gmap string string))
  : M N ApiHelper.ApiResponse :=
  request net {| method := "PUT";
                 url := url;
                 body := Some body;
                 headers := default ∅ headers;
                 failOnStatusCode := false |}.

(** static delete(url, headers?) *)
Definition delete (url : string) (headers : option (gmap string string))
  : M N ApiHelper.ApiResponse :=
  request net {| method := "DELETE";
                 url := url;
                 body := None;
                 headers := default ∅ headers;
                 failOnStatusCode := false |}.

End Requests.
End ApiRequests.

Module ConfigFixtures.
Import Js.

(** A module loader for which cypress/config/qa.config.ts loads but has
    named exports only ([export const baseUrl = ...]), no default export. *)
Definition named_exports_only : JsVal :=
  JObject 30 {[ "baseUrl" := JStr "https://qa.yourapp.com" ]}.

Definition require_named_exports (path : string) : Completion JsVal :=
  if String.eqb path "./cypress/config/qa.config.ts" then Normal named_exports_only
  else Throw (Error ("Cannot find module '" ++ path ++ "'")).

End ConfigFixtures.

Module RequestFixtures.
Import Js CyRequest.

(** A server that answers every request with the 404 response. *)
Definition not_found_server : Network nat :=
  fun _ n => (Normal Fixtures.response_404, S n).

End RequestFixtures.

(* ================================================================== *)
(** ** The other checks of [ApiHelper] *)
(* ================================================================== *)

Module ApiChecks.
Import Js.

(** [name in Object(target)], own properties only (as [get_property]). *)
Definition has_property (target : JsVal) (name : string) : bool :=
  match target with
  | JObject _ props => bool_decide (is_Some (props !! name))
  | JArray _ elems =>
      String.eqb name "length" || bool_decide (is_Some (array_index_from 0 elems name))
  | JStr s =>
      String.eqb name "length" || bool_decide (is_Some (string_index_from 0 s name))
  | JUndefined | JNull | JBool _ | JNum _ | JNaN => false
  end.

(** [expect(target).to.have.property(name)] on a value of type [any]:
    [null] and [undefined] are refused as targets. *)
Definition to_have_property (target : JsVal) (name : string) : Completion unit :=
  match target with
  | JUndefined | JNull => Throw (Chai.AssertionError "")
  | _ => Chai.chai_assert (has_property target name) ""
  end.

(** [expect(actual).to.be.lessThan(n)]: the target has to be a number, and
    then [actual < n]. *)
Definition to_be_lessThan (actual : JsVal) (n : Z) : Completion unit :=
  match actual with
  | JNum x => Chai.chai_assert (Z.ltb x n) ""
  | _ => Throw (Chai.AssertionError "")
  end.

(** static verifyBodyProperty(response, property): void *)
Definition verifyBodyProperty (response : ApiHelper.ApiResponse) (property : string)
  : Completion unit :=
  to_have_property (ApiHelper.body response) property.

(** static verifyResponseTime(response, maxDuration): void *)
Definition verifyResponseTime (response : ApiHelper.ApiResponse) (maxDuration : Z)
  : Completion unit :=
  to_be_lessThan (ApiHelper.duration response) maxDuration.

End ApiChecks.

(* ================================================================== *)
(** ** The other methods of [DbHelper] *)
(* ================================================================== *)

Module DbHelperQueries.
Import Js Eff Mssql DbTasks Cy.
Local Open Scope eff_scope.

(** [subject.then(callback)] for a callback that returns a value: the
    value becomes the new subject, unless it is [undefined], in which case
    the subject is kept. *)
Definition then_return {S A} (subject : Chainable S A) (callback : A -> Completion JsVal)
  : Chainable S (A + JsVal) :=
  fun w =>
    match subject w with
    | (Normal a, w') =>
        (match callback a with
         | Normal JUndefined => Normal (inl a)
         | Normal v => Normal (inr v)
         | Throw e => Throw e
         end, w')
    | (Throw e, w') => (Throw e, w')
    end.

(** [expect(target, label).to.have.length.greaterThan(n)] on an optional
    array: [undefined] has no length. *)
Definition to_have_length_greaterThan {A} (target : option (list A)) (n : nat) (label : string)
  : Completion unit :=
  match target with
  | None => Throw (Chai.AssertionError label)
  | Some items => Chai.chai_assert (n <? List.length items)%nat label
  end.

(** [result.data![0][fieldName]] *)
Definition first_row_field (result : DbResult) (fieldName : string) : Completion JsVal :=
  match data result with
  | None => Throw (TypeError "Cannot read properties of undefined (reading '0')")
  | Some [] => Throw (TypeError "Cannot read properties of undefined")
  | Some (row :: _) => Normal (default JUndefined (row !! fieldName))
  end.

(** The callback of [getRecordCount]:
    [expect(result.success, ...).to.be.true; return result.data![0].count;] *)
Definition return_count (result : DbResult) : Completion JsVal :=
  andThen (Chai.to_be_true (JBool (success result)) "Database query should succeed")
    (fun _ =>
  DbHelper.first_row_count result).

(** The callback of [verifyFieldValue]. *)
Definition expect_field (fieldName : string) (expectedValue : JsVal) (result : DbResult)
  : Completion unit :=
  andThen (Chai.to_be_true (JBool (success result)) "Database query should succeed")
    (fun _ =>
  andThen (to_have_length_greaterThan (data result) 0 "Record should exist") (fun _ =>
  andThen (first_row_field result fieldName) (fun actual =>
  Chai.to_eq actual expectedValue ("Field " ++ fieldName ++ " should match expected value")))).

Section Queries.
(** The task handlers registered with the runner. *)
Context {S : Type} (tasks : TaskHandlers (S := S)).

(** static getRecordCount(tableName, whereClause?) *)
Definition getRecordCount (tableName : string) (whereClause : option string)
  : M DbHelper.Static (Chainable S (DbResult + JsVal)) :=
  let query_ :=
    if truthy_string whereClause
    then "SELECT COUNT(*) as count FROM " ++ tableName ++ " WHERE " ++ default "" whereClause
    else "SELECT COUNT(*) as count FROM " ++ tableName in
  let! subject := DbHelper.query tasks query_ None in
  ret (then_return subject return_count).

(** static verifyFieldValue(tableName, fieldName, expectedValue, whereClause) *)
Definition verifyFieldValue (tableName fieldName : string) (expectedValue : JsVal)
    (whereClause : string) : M DbHelper.Static (Chainable S unit) :=
  let query_ := "SELECT " ++ fieldName ++ " FROM " ++ tableName ++ " WHERE " ++ whereClause in
  let! subject := DbHelper.query tasks query_ None in
  ret (then_ subject (expect_field fieldName expectedValue)).

(** static deleteRecords(tableName, whereClause) *)
Definition deleteRecords (tableName whereClause : string)
  : M DbHelper.Static (Chainable S DbResult) :=
  let query_ := "DELETE FROM " ++ tableName ++ " WHERE " ++ whereClause in
  DbHelper.query tasks query_ None.

End Queries.
End DbHelperQueries.

(* ================================================================== *)
(** ** The members every object inherits *)
(* ================================================================== *)

Module ObjectPrototype.

(** The property names of [Object.prototype].  Reading one of them on an
    object that has no own property of that name does not give
    [undefined]; [get_property] and the row reads are exact for every
    other name. *)
Definition members : list string :=
  ["constructor"; "__defineGetter__"; "__defineSetter__"; "hasOwnProperty";
   "__lookupGetter__"; "__lookupSetter__"; "isPrototypeOf"; "propertyIsEnumerable";
   "toString"; "valueOf"; "__proto__"; "toLocaleString"].

End ObjectPrototype.

(* ================================================================== *)
(** ** cypress.config.ts: the [e2e] block *)
(* ================================================================== *)

Module E2eConfig.
Import Js.

(** The own enumerable properties that [{ ...value }] copies: those of an
    object, the indices of an array or of a string, none of any other
    value. *)
Fixpoint indexed_from {A} (i : nat) (items : list A) : list (string * A) :=
  match items with
  | [] => []
  | x :: rest => (pretty i, x) :: indexed_from (S i) rest
  end.

Fixpoint characters (s : string) : list JsVal :=
  match s with
  | EmptyString => []
  | String c rest => JStr (String c EmptyString) :: characters rest
  end.

Definition spread (value : JsVal) : gmap string JsVal :=
  match value with
  | JObject _ props => props
  | JArray _ elems => list_to_map (indexed_from 0 elems)
  | JStr s => list_to_map (indexed_from 0 (characters s))
  | JUndefined | JNull | JBool _ | JNum _ | JNaN => ∅
  end.

(** A property of the [e2e] object: copied from the environment
    configuration, or the [setupNodeEvents] method the file defines. *)
Inductive E2eValue :=
  | FromEnvConfig (value : JsVal)
  | setupNodeEvents.

(** [e2e: { ...envConfig, setupNodeEvents(on, config) { ... } }] *)
Definition e2e (envConfig : JsVal) : gmap string E2eValue :=
  <[ "setupNodeEvents" := setupNodeEvents ]> (FromEnvConfig <$> spread envConfig).

End E2eConfig.

(* ================================================================== *)
(** * Theorems *)
(* ================================================================== *)

Import Js Fixtures.

(** ** Strings and strict equality *)

Example toLowerCase_content_type : toLowerCase "Content-Type" = "content-type".
Proof. reflexivity. Qed.

Example includes_json : includes "application/json; charset=utf-8" "application/json" = true.
Proof. reflexivity. Qed.

Example get_property_array_index :
  get_property (JArray 1 [JNum 7; JNum 8]) "1" = Normal (JNum 8)
  /\ get_property (JArray 1 [JNum 7; JNum 8]) "length" = Normal (JNum 2)
  /\ get_property (JStr "abc") "2" = Normal (JStr "c")
  /\ get_property (JObject 1 {[ "id" := JNum 1 ]}) "name" = Normal JUndefined.
Proof. vm_compute. repeat split. Qed.

Lemma includes_empty (hay : string) : includes hay "" = true.
Proof. destruct hay; reflexivity. Qed.

(** [===] never relates values of different types. *)
Lemma strict_equals_same_type (a b : JsVal) :
  strict_equals a b = true -> type_of a = type_of b.
Proof. destruct a, b; simpl; intros H; try discriminate; reflexivity. Qed.

Lemma strict_equals_num (v : JsVal) (n : Z) :
  strict_equals v (JNum n) = true <-> v = JNum n.
Proof.
  destruct v; simpl; split; intros H; try discriminate.
  - apply Z.eqb_eq in H. now subst.
  - injection H as ->. apply Z.eqb_refl.
Qed.

Lemma chai_assert_normal (cond : bool) (label : string) :
  Chai.chai_assert cond label = Normal tt <-> cond = true.
Proof. destruct cond; simpl; split; intros H; try discriminate; reflexivity. Qed.

(** ** ApiHelper *)

Section ApiHelperFacts.
Import ApiHelper.

Example verifyStatusCode_404 :
  verifyStatusCode response_404 (JNum 404) = Normal tt
  /\ verifyStatusCode response_404 (JNum 200) = Throw (Chai.AssertionError "")
  /\ verifyStatusCode response_404 (JNum 500) = Throw (Chai.AssertionError "").
Proof. repeat split. Qed.

(** C5. [verifyStatusCode(response, code)] passes if and only if
    [response.status === code], for every response and every integer
    [code] (2xx or not): the status has to be the number [code] itself. *)
Theorem verifyStatusCode_passes_iff_status_equals (response : ApiResponse) (code : Z) :
  (verifyStatusCode response (JNum code) = Normal tt
     <-> strict_equals (status response) (JNum code) = true)
  /\ (verifyStatusCode response (JNum code) = Normal tt <-> status response = JNum code).
Proof.
  unfold verifyStatusCode, Chai.to_eq. split.
  - apply chai_assert_normal.
  - rewrite chai_assert_normal. apply strict_equals_num.
Qed.

(** C7. [verifyBodyPropertyValue] compares [response.body[property]] with
    the expected value by strict equality: it passes exactly when the
    property read succeeds and yields a value [===] to the expected one,
    values that pass have the type of the expected value (no coercion),
    a string is never equal to a number, and
    [verifyBodyPropertyValue({body:{id:"1"}}, "id", 1)] fails. *)
Theorem verifyBodyPropertyValue_strict_equality :
  (forall (response : ApiResponse) (property : string) (value : JsVal),
      verifyBodyPropertyValue response property value = Normal tt
      <-> exists actual,
            get_property (body response) property = Normal actual
            /\ strict_equals actual value = true)
  /\ (forall (response : ApiResponse) (property : string) (value actual : JsVal),
         verifyBodyPropertyValue response property value = Normal tt ->
         get_property (body response) property = Normal actual ->
         type_of actual = type_of value)
  /\ (forall (s : string) (n : Z), strict_equals (JStr s) (JNum n) = false)
  /\ verifyBodyPropertyValue response_id_string "id" (JNum 1)
     = Throw (Chai.AssertionError "")
  /\ verifyBodyPropertyValue response_id_string "id" (JStr "1") = Normal tt.
Proof.
  assert (Hiff : forall response property value,
             verifyBodyPropertyValue response property value = Normal tt
             <-> exists actual,
                   get_property (body response) property = Normal actual
                   /\ strict_equals actual value = true).
  { intros response property value. unfold verifyBodyPropertyValue, Chai.to_eq.
    destruct (get_property (body response) property) as [actual|e]; simpl.
    - rewrite chai_assert_normal. split.
      + intros H. exists actual. split; [reflexivity | exact H].
      + intros (a & Ha & Heq). injection Ha as ->. exact Heq.
    - split; [discriminate |]. intros (a & Ha & _). discriminate. }
  split; [exact Hiff |]. split; [| split; [| split]].
  - intros response property value actual Hpass Hget.
    apply Hiff in Hpass as (a & Ha & Heq).
    rewrite Hget in Ha. injection Ha as ->.
    now apply strict_equals_same_type.
  - reflexivity.
  - vm_compute. reflexivity.
  - vm_compute. reflexivity.
Qed.

(** Passing [verifyHeader], in terms of the header record. *)
Lemma verifyHeader_normal (response : ApiResponse) (headerName : string)
    (expectedValue : option string) :
  verifyHeader response headerName expectedValue = Normal tt
  <-> exists value,
        headers response !! toLowerCase headerName = Some value
        /\ forall expected, expectedValue = Some expected -> includes value expected = true.
Proof.
  unfold verifyHeader, Chai.to_have_property.
  destruct (headers response !! toLowerCase headerName) as [value|] eqn:Hlookup.
  - rewrite bool_decide_eq_true_2 by eauto. simpl.
    destruct expectedValue as [expected|]; simpl.
    + destruct (String.eqb expected "") eqn:Hempty; simpl.
      * apply String.eqb_eq in Hempty. subst expected. split; [| reflexivity].
        intros _. exists value. split; [reflexivity |].
        intros ? [= <-]. apply includes_empty.
      * rewrite chai_assert_normal. split.
        -- intros H. exists value. split; [reflexivity |]. now intros ? [= <-].
        -- intros (v & [= <-] & H). now apply H.
    + split; [| reflexivity]. intros _. exists value. split; [reflexivity | discriminate].
  - rewrite bool_decide_eq_false_2 by (intros [? ?]; discriminate). simpl.
    split; [discriminate |]. intros (v & Hv & _). discriminate.
Qed.

(** C6, as stated, fails: a content-type header stored under the key
    ["Content-Type"] is not found by [verifyHeader(resp, 'Content-Type')],
    so success does not hold regardless of the casing of the stored key. *)
Lemma verifyHeader_stored_key_casing_matters :
  ~ (forall (response : ApiResponse) (headerName storedKey : string),
        toLowerCase storedKey = toLowerCase headerName ->
        is_Some (headers response !! storedKey) ->
        verifyHeader response headerName None = Normal tt).
Proof.
  intros H.
  specialize (H response_capitalised_key "Content-Type" "Content-Type" eq_refl).
  assert (Hsome : is_Some (headers response_capitalised_key !! "Content-Type")).
  { exists "application/json". reflexivity. }
  specialize (H Hsome). vm_compute in H. discriminate.
Qed.

(** C6, amended. [verifyHeader] is case-insensitive in its [headerName]
    argument: the argument is lower-cased and that key is looked up as it
    is.  When [response.headers] has the lower-cased key, the call passes
    if and only if every expected value supplied is a substring of the
    value stored there (so it passes when none is supplied); two arguments
    that differ in casing only behave alike; and
    [verifyHeader(resp, 'Content-Type')] passes as soon as
    [resp.headers['content-type']] exists. *)
Theorem verifyHeader_case_insensitive_argument :
  (forall (response : ApiResponse) (headerName value : string)
          (expectedValue : option string),
      headers response !! toLowerCase headerName = Some value ->
      (verifyHeader response headerName expectedValue = Normal tt
       <-> forall expected, expectedValue = Some expected -> includes value expected = true))
  /\ (forall (response : ApiResponse) (name1 name2 : string) (expectedValue : option string),
         toLowerCase name1 = toLowerCase name2 ->
         verifyHeader response name1 expectedValue = verifyHeader response name2 expectedValue)
  /\ (forall (response : ApiResponse) (value : string),
         headers response !! "content-type" = Some value ->
         verifyHeader response "Content-Type" None = Normal tt).
Proof.
  split; [| split].
  - intros response headerName value expectedValue Hlookup.
    rewrite verifyHeader_normal. split.
    + intros (value' & Hlookup' & Hincludes).
      rewrite Hlookup in Hlookup'. injection Hlookup' as <-. exact Hincludes.
    + intros Hincludes. exists value. split; [exact Hlookup | exact Hincludes].
  - intros response name1 name2 expectedValue Heq.
    unfold verifyHeader. now rewrite Heq.
  - intros response value Hlookup. apply verifyHeader_normal.
    exists value. split; [exact Hlookup | discriminate].
Qed.

Lemma verifyHeader_case_insensitive_argument_witness :
  verifyHeader response_id_string "CONTENT-TYPE" (Some "application/json")
  = verifyHeader response_id_string "content-type" (Some "application/json")
  /\ verifyHeader response_id_string "Content-Type" None = Normal tt
  /\ verifyHeader response_id_string "Content-Type" (Some "application/json") = Normal tt.
Proof.
  split; [| split].
  - apply (proj1 (proj2 verifyHeader_case_insensitive_argument)). reflexivity.
  - apply (proj2 (proj2 verifyHeader_case_insensitive_argument)
             response_id_string "application/json; charset=utf-8").
    reflexivity.
  - apply (proj1 verifyHeader_case_insensitive_argument
             response_id_string "Content-Type" "application/json; charset=utf-8"
             (Some "application/json") eq_refl).
    intros expected [= <-]. reflexivity.
Defined.

(** C10. [verifyHeader] with the empty string as expected value behaves
    exactly like [verifyHeader] without expected value: the substring test
    is skipped, and the call passes whenever the lower-cased header name is
    a key of [response.headers], whatever the value stored under it. *)
Theorem verifyHeader_empty_expected_value (response : ApiResponse) (headerName : string) :
  verifyHeader response headerName (Some "") = verifyHeader response headerName None
  /\ (is_Some (headers response !! toLowerCase headerName) ->
      verifyHeader response headerName (Some "") = Normal tt)
  /\ (forall value : string,
         verifyHeader
           {| status := status response; body := body response;
              headers := <[toLowerCase headerName := value]> (headers response);
              duration := duration response |}
           headerName (Some "") = Normal tt).
Proof.
  split; [reflexivity |]. split.
  - intros [value Hv]. apply verifyHeader_normal. exists value. split; [exact Hv |].
    intros ? [= <-]. apply includes_empty.
  - intros value. apply verifyHeader_normal. exists value. simpl. split.
    + apply lookup_insert_eq.
    + intros ? [= <-]. apply includes_empty.
Qed.

Lemma verifyHeader_empty_expected_value_witness :
  verifyHeader response_id_string "Content-Type" (Some "") = Normal tt.
Proof.
  apply (proj1 (proj2 (verifyHeader_empty_expected_value response_id_string "Content-Type"))).
  exists "application/json; charset=utf-8". reflexivity.
Defined.

End ApiHelperFacts.

(** ** Database tasks *)

Section DbTaskFacts.
Import Eff Mssql DbTasks.
Context {S : Type} (sql : Client S).

(** What a call of [executeQuery] does, by the answers of the client. *)
Lemma executeQuery_run (query : string) (config : DbConfig) (w : World S) :
  executeQuery sql query config w =
    match connect sql config (driver w) with
    | (Throw e, s1) =>
        (Normal (failure_result e),
         {| driver := s1;
            trace := trace w ++ [EvConnect config None];
            console := console w ++ [("Database query error:", e)] |})
    | (Normal p, s1) =>
        let '(c2, s2) := Mssql.query sql (pool_request p) query s1 in
        let '(c3, s3) := close sql p s2 in
        (match c3 with
         | Throw e3 => Throw e3
         | Normal _ =>
             Normal (match c2 with
                     | Normal result => success_result result
                     | Throw e => failure_result e
                     end)
         end,
         {| driver := s3;
            trace := ((trace w ++ [EvConnect config (Some p)]) ++ [EvQuery p query])
                     ++ [EvClose p];
            console := match c2 with
                       | Normal _ => console w
                       | Throw e => console w ++ [("Database query error:", e)]
                       end |})
    end.
Proof.
  unfold executeQuery, in_frame, close_if_open, sql_connect, set_pool, request_query,
    pool_close, console_error, try_finally, try_catch, modify, get, ret, bind.
  simpl.
  destruct (connect sql config (driver w)) as [[p|e] s1]; simpl; [| reflexivity].
  destruct (Mssql.query sql (pool_request p) query s1) as [[result|e] s2]; simpl;
    destruct (close sql p s2) as [[[]|e3] s3]; reflexivity.
Qed.

(** What a call of [executeStoredProcedure] does. *)
Lemma executeStoredProcedure_run (procedureName : string)
    (parameters : option (list (string * JsVal))) (config : DbConfig) (w : World S) :
  executeStoredProcedure sql procedureName parameters config w =
    match connect sql config (driver w) with
    | (Throw e, s1) =>
        (Normal (failure_result e),
         {| driver := s1;
            trace := trace w ++ [EvConnect config None];
            console := console w ++ [("Stored procedure error:", e)] |})
    | (Normal p, s1) =>
        match add_parameters sql (pool_request p) (Object_keys (default [] parameters))
                (default [] parameters) with
        | Throw e =>
            let '(c3, s3) := close sql p s1 in
            (match c3 with
             | Throw e3 => Throw e3
             | Normal _ => Normal (failure_result e)
             end,
             {| driver := s3;
                trace := (trace w ++ [EvConnect config (Some p)]) ++ [EvClose p];
                console := console w ++ [("Stored procedure error:", e)] |})
        | Normal request =>
            let '(c2, s2) := execute sql request procedureName s1 in
            let '(c3, s3) := close sql p s2 in
            (match c3 with
             | Throw e3 => Throw e3
             | Normal _ =>
                 Normal (match c2 with
                         | Normal result => success_result result
                         | Throw e => failure_result e
                         end)
             end,
             {| driver := s3;
                trace := ((trace w ++ [EvConnect config (Some p)])
                          ++ [EvExecute (req_pool request) procedureName (req_inputs request)])
                         ++ [EvClose p];
                console := match c2 with
                           | Normal _ => console w
                           | Throw e => console w ++ [("Stored procedure error:", e)]
                           end |})
        end
    end.
Proof.
  unfold executeStoredProcedure, in_frame, close_if_open, sql_connect, set_pool,
    request_execute, pool_close, console_error, try_finally, try_catch, modify, get, ret,
    lift_completion, bind.
  simpl.
  destruct (connect sql config (driver w)) as [[p|e] s1]; simpl; [| reflexivity].
  destruct (add_parameters sql (pool_request p) (Object_keys (default [] parameters))
              (default [] parameters)) as [request|e]; simpl.
  - destruct (execute sql request procedureName s1) as [[result|e] s2]; simpl;
      destruct (close sql p s2) as [[[]|e3] s3]; reflexivity.
  - destruct (close sql p s1) as [[[]|e3] s3]; reflexivity.
Qed.

(** Adding inputs keeps the request on its pool. *)
Lemma add_parameters_pool (keys : list string) (parameters : list (string * JsVal)) :
  forall request request' : Request,
    add_parameters sql request keys parameters = Normal request' ->
    req_pool request' = req_pool request.
Proof.
  induction keys as [|key rest IH]; simpl; intros request request' H.
  - now injection H as <-.
  - unfold request_input in H.
    destruct (input sql request key (parameter parameters key)); simpl in H;
      [| discriminate].
    apply IH in H. exact H.
Qed.

End DbTaskFacts.

Section DbTaskClaims.
Import Eff Mssql DbTasks.
Context {S : Type} (sql : Client S).

(** C2. [executeQuery] and [executeStoredProcedure] never propagate an
    exception of connecting or of executing (binding the inputs
    included): the error is caught and the call returns
    [{ success: false, error: error.message }]; when nothing throws it
    returns [{ success: true, data, rowsAffected }].  The one exception
    that can leave a task is the one [pool.close()] throws in the
    [finally] block, so each case below where a pool was opened is for a
    close that returns. *)
Theorem tasks_capture_connect_and_execute_errors
    (query procedureName : string) (parameters : option (list (string * JsVal)))
    (config : DbConfig) (w : World S) :
  (* executeQuery *)
  (forall e s1,
      connect sql config (driver w) = (Throw e, s1) ->
      fst (executeQuery sql query config w)
      = Normal {| success := false; data := None; rowsAffected := None;
                  error := Some (err_message e) |})
  /\ (forall p s1 e s2 s3,
         connect sql config (driver w) = (Normal p, s1) ->
         Mssql.query sql (pool_request p) query s1 = (Throw e, s2) ->
         close sql p s2 = (Normal tt, s3) ->
         fst (executeQuery sql query config w)
         = Normal {| success := false; data := None; rowsAffected := None;
                     error := Some (err_message e) |})
  /\ (forall p s1 result s2 s3,
         connect sql config (driver w) = (Normal p, s1) ->
         Mssql.query sql (pool_request p) query s1 = (Normal result, s2) ->
         close sql p s2 = (Normal tt, s3) ->
         fst (executeQuery sql query config w)
         = Normal {| success := true; data := recordset result;
                     rowsAffected := Some (Mssql.rowsAffected result); error := None |})
  /\ (forall e,
         fst (executeQuery sql query config w) = Throw e ->
         exists p s1 c2 s2 s3,
           connect sql config (driver w) = (Normal p, s1)
           /\ Mssql.query sql (pool_request p) query s1 = (c2, s2)
           /\ close sql p s2 = (Throw e, s3))
  (* executeStoredProcedure *)
  /\ (forall e s1,
         connect sql config (driver w) = (Throw e, s1) ->
         fst (executeStoredProcedure sql procedureName parameters config w)
         = Normal {| success := false; data := None; rowsAffected := None;
                     error := Some (err_message e) |})
  /\ (forall p s1 e s3,
         connect sql config (driver w) = (Normal p, s1) ->
         add_parameters sql (pool_request p) (Object_keys (default [] parameters))
           (default [] parameters) = Throw e ->
         close sql p s1 = (Normal tt, s3) ->
         fst (executeStoredProcedure sql procedureName parameters config w)
         = Normal {| success := false; data := None; rowsAffected := None;
                     error := Some (err_message e) |})
  /\ (forall p s1 request e s2 s3,
         connect sql config (driver w) = (Normal p, s1) ->
         add_parameters sql (pool_request p) (Object_keys (default [] parameters))
           (default [] parameters) = Normal request ->
         execute sql request procedureName s1 = (Throw e, s2) ->
         close sql p s2 = (Normal tt, s3) ->
         fst (executeStoredProcedure sql procedureName parameters config w)
         = Normal {| success := false; data := None; rowsAffected := None;
                     error := Some (err_message e) |})
  /\ (forall p s1 request result s2 s3,
         connect sql config (driver w) = (Normal p, s1) ->
         add_parameters sql (pool_request p) (Object_keys (default [] parameters))
           (default [] parameters) = Normal request ->
         execute sql request procedureName s1 = (Normal result, s2) ->
         close sql p s2 = (Normal tt, s3) ->
         fst (executeStoredProcedure sql procedureName parameters config w)
         = Normal {| success := true; data := recordset result;
                     rowsAffected := Some (Mssql.rowsAffected result); error := None |})
  /\ (forall e,
         fst (executeStoredProcedure sql procedureName parameters config w) = Throw e ->
         exists p s1 s2 s3,
           connect sql config (driver w) = (Normal p, s1)
           /\ close sql p s2 = (Throw e, s3)).
Proof.
  rewrite executeQuery_run, executeStoredProcedure_run.
  repeat match goal with |- _ /\ _ => split end.
  - intros e s1 ->. reflexivity.
  - intros p s1 e s2 s3 -> -> ->. reflexivity.
  - intros p s1 result s2 s3 -> -> ->. reflexivity.
  - intros e.
    destruct (connect sql config (driver w)) as [[p|e1] s1]; [| discriminate].
    destruct (Mssql.query sql (pool_request p) query s1) as [c2 s2] eqn:Hquery.
    destruct (close sql p s2) as [[[]|e3] s3] eqn:Hclose; simpl; [discriminate |].
    intros [= ->]. exists p, s1, c2, s2, s3.
    split; [reflexivity | split; [exact Hquery | exact Hclose]].
  - intros e s1 ->. reflexivity.
  - intros p s1 e s3 -> -> ->. reflexivity.
  - intros p s1 request e s2 s3 -> -> -> ->. reflexivity.
  - intros p s1 request result s2 s3 -> -> -> ->. reflexivity.
  - intros e.
    destruct (connect sql config (driver w)) as [[p|e1] s1]; [| discriminate].
    destruct (add_parameters sql (pool_request p) (Object_keys (default [] parameters))
                (default [] parameters)) as [request|e2].
    + destruct (execute sql request procedureName s1) as [c2 s2].
      destruct (close sql p s2) as [[[]|e3] s3] eqn:Hclose; simpl; [discriminate |].
      intros [= ->]. exists p, s1, s2, s3. split; [reflexivity | exact Hclose].
    + destruct (close sql p s1) as [[[]|e3] s3] eqn:Hclose; simpl; [discriminate |].
      intros [= ->]. exists p, s1, s1, s3. split; [reflexivity | exact Hclose].
Qed.

End DbTaskClaims.

Section PoolLifecycle.
Import Eff Mssql DbTasks.
Context {S : Type} (sql : Client S).

(** In a life cycle that opens a pool, the close of that pool comes last. *)
Lemma pool_lifecycle_closes (config : DbConfig) (evs : list Event) (p : ConnectionPool) :
  pool_lifecycle config evs ->
  In (EvConnect config (Some p)) evs ->
  exists before, evs = (before ++ [EvClose p])%list.
Proof.
  intros Hlife Hin. destruct Hlife as [|p' work Hwork].
  - destruct Hin as [Heq | []]. discriminate.
  - assert (p' = p) as ->.
    { destruct Hin as [Heq | Hin]; [now injection Heq |].
      apply in_app_or in Hin as [Hin | [Heq | []]]; [| discriminate].
      rewrite Forall_forall in Hwork. apply list_elem_of_In in Hin.
      apply Hwork in Hin. contradiction. }
    exists (EvConnect config (Some p) :: work). reflexivity.
Qed.




End PoolLifecycle.

(** An exception of [pool.close()] itself is not caught: it replaces the
    result the task was about to return. *)
Example close_failure_leaves_the_task :
  fst (DbTasks.executeQuery
         (scripted (Normal 7%positive) (Normal (count_rows 1)) (Normal tt) (Throw close_failed))
         "SELECT * FROM Users" localConfig start)
  = Throw close_failed.
Proof. reflexivity. Qed.

Example executeQuery_trace_on_error :
  Mssql.trace (snd (DbTasks.executeQuery bad_sql "SELECT * FROM Users" localConfig start))
  = [Mssql.EvConnect localConfig (Some 7%positive);
     Mssql.EvQuery 7%positive "SELECT * FROM Users";
     Mssql.EvClose 7%positive].
Proof. reflexivity. Qed.

(** ** DbHelper *)

Section DbHelperClaims.
Import Eff Mssql DbTasks Cy.
Context {S : Type} (sql : Client S).

(** Throughout, the task handlers are the ones that
    [registerDatabaseTasks] registers. *)
Local Abbreviation handlers := (registerDatabaseTasks sql).

(** The command that [cy.task('dbQuery', { query, config })] queues. *)
Lemma task_dbQuery_run (query : string) (config : DbConfig) (w : World S) :
  fst (task "dbQuery" (executeQuery sql query config) w)
  = match fst (executeQuery sql query config w) with
    | Normal result => Normal result
    | Throw e => Throw (CypressError "dbQuery" e)
    end.
Proof.
  unfold task. destruct (executeQuery sql query config w) as [[result|e] w']; reflexivity.
Qed.

(** C1. [DbHelper.query(sql)] without override raises
    'Database configuration not set. Call DbHelper.setConfig() first.'
    as long as no configuration is stored; after [setConfig] it does not
    raise and queues the [dbQuery] task with the stored configuration.
    The [DbResult] the task yields has [success] true exactly when
    neither the connect nor the query threw, and the task does yield a
    result whenever the [pool.close()] of its [finally] block returns. *)
Theorem query_needs_config_then_reports_success (query : string) :
  DbHelper.query handlers query None DbHelper.initial
  = (Throw (Error "Database configuration not set. Call DbHelper.setConfig() first."),
     DbHelper.initial)
  /\ (forall this,
         DbHelper.config this = None ->
         DbHelper.query handlers query None this
         = (Throw (Error "Database configuration not set. Call DbHelper.setConfig() first."),
            this))
  /\ (forall this config,
         DbHelper.query handlers query None (snd (DbHelper.setConfig config this))
         = (Normal (task "dbQuery" (executeQuery sql query config)),
            snd (DbHelper.setConfig config this)))
  /\ (forall config w result,
         fst (task "dbQuery" (executeQuery sql query config) w) = Normal result ->
         (success result = true
          <-> exists p s1 rows s2,
                connect sql config (driver w) = (Normal p, s1)
                /\ Mssql.query sql (pool_request p) query s1 = (Normal rows, s2)))
  /\ (forall config w,
         (forall p s1 c2 s2,
             connect sql config (driver w) = (Normal p, s1) ->
             Mssql.query sql (pool_request p) query s1 = (c2, s2) ->
             fst (close sql p s2) = Normal tt) ->
         exists result,
           fst (task "dbQuery" (executeQuery sql query config) w) = Normal result).
Proof.
  split; [reflexivity |].
  split.
  { intros [cfg] Hnone. simpl in Hnone. subst cfg. reflexivity. }
  split; [reflexivity |].
  split.
  - intros config w result. rewrite task_dbQuery_run, executeQuery_run.
    destruct (connect sql config (driver w)) as [[p|e] s1]; simpl.
    + destruct (Mssql.query sql (pool_request p) query s1) as [[rows|e] s2] eqn:Hquery;
        destruct (close sql p s2) as [[[]|e3] s3]; simpl; try discriminate.
      * intros [= <-]. simpl. split; [| reflexivity].
        intros _. exists p, s1, rows, s2. split; [reflexivity | exact Hquery].
      * intros [= <-]. simpl. split; [discriminate |].
        intros (p' & s1' & rows & s2' & [= <- <-] & Hquery').
        rewrite Hquery in Hquery'. discriminate.
    + intros [= <-]. simpl. split; [discriminate |].
      intros (p' & s1' & rows & s2' & Hconnect & _). discriminate.
  - intros config w Hclose. rewrite task_dbQuery_run, executeQuery_run.
    destruct (connect sql config (driver w)) as [[p|e] s1] eqn:Hconnect; simpl.
    + specialize (Hclose p s1).
      destruct (Mssql.query sql (pool_request p) query s1) as [c2 s2].
      specialize (Hclose c2 s2 eq_refl eq_refl).
      destruct (close sql p s2) as [c3 s3]. simpl in Hclose. subst c3. simpl. eauto.
    + eauto.
Qed.

(** C9. With an override configuration [DbHelper.query] and
    [DbHelper.executeStoredProcedure] never raise the
    configuration-not-set error, whatever is stored: they queue the task
    with the override, and the stored configuration is left as it was,
    so a later call without override behaves as if the call with
    override had not been made. *)
Theorem override_config_bypasses_stored_config
    (query procedureName : string) (parameters : option (list (string * JsVal)))
    (customConfig : DbConfig) (this : DbHelper.Static) :
  DbHelper.query handlers query (Some customConfig) this
  = (Normal (task "dbQuery" (executeQuery sql query customConfig)), this)
  /\ DbHelper.executeStoredProcedure handlers procedureName parameters (Some customConfig) this
     = (Normal (task "dbStoredProcedure"
                  (executeStoredProcedure sql procedureName parameters customConfig)),
        this)
  /\ DbHelper.config (snd (DbHelper.query handlers query (Some customConfig) this))
     = DbHelper.config this
  /\ DbHelper.config
       (snd (DbHelper.executeStoredProcedure handlers procedureName parameters
               (Some customConfig) this))
     = DbHelper.config this
  /\ (forall query',
         DbHelper.query handlers query' None
           (snd (DbHelper.query handlers query (Some customConfig) this))
         = DbHelper.query handlers query' None this)
  /\ (forall query',
         DbHelper.query handlers query' None
           (snd (DbHelper.executeStoredProcedure handlers procedureName parameters
                   (Some customConfig) this))
         = DbHelper.query handlers query' None this)
  /\ (forall config query',
         DbHelper.query handlers query' None
           (snd (DbHelper.query handlers query (Some customConfig)
                   (snd (DbHelper.setConfig config this))))
         = (Normal (task "dbQuery" (executeQuery sql query' config)),
            snd (DbHelper.setConfig config this))).
Proof. repeat split. Qed.

End DbHelperClaims.

Example query_with_override_before_setConfig :
  fst (DbHelper.query (DbTasks.registerDatabaseTasks (healthy 1)) "SELECT TOP 5 * FROM Users"
         (Some qaConfig) DbHelper.initial)
  = Normal (Cy.task "dbQuery"
              (DbTasks.executeQuery (healthy 1) "SELECT TOP 5 * FROM Users" qaConfig)).
Proof. reflexivity. Qed.

Section RecordChecks.
Import Eff Mssql DbTasks Cy.
Context {S : Type} (sql : Client S).
Local Abbreviation handlers := (registerDatabaseTasks sql).

(** When the callback of [verifyRecordExists] accepts a result. *)
Lemma expect_record_normal (tableName : string) (result : DbResult) :
  DbHelper.expect_record tableName result = Normal tt
  <-> success result = true
      /\ exists row rest n,
           data result = Some (row :: rest)
           /\ row !! "count" = Some (JNum n)
           /\ (0 < n)%Z.
Proof.
  unfold DbHelper.expect_record, DbHelper.first_row_count, Chai.to_be_true.
  destruct (success result); simpl.
  - destruct (data result) as [[|row rest]|]; simpl.
    + split; [discriminate |]. intros (_ & row & rest & n & Hd & _). discriminate.
    + destruct (row !! "count") as [count|] eqn:Hcount; simpl.
      * destruct count; simpl;
          try (split; [discriminate |];
               intros (_ & row' & rest' & n' & [= <- <-] & Hc & _);
               rewrite Hcount in Hc; discriminate).
        rewrite chai_assert_normal, Z.ltb_lt. split.
        -- intros Hpos. split; [reflexivity |]. exists row, rest, n. auto.
        -- intros (_ & row' & rest' & n' & [= <- <-] & Hc & Hpos).
           rewrite Hcount in Hc. now injection Hc as ->.
      * split; [discriminate |].
        intros (_ & row' & rest' & n' & [= <- <-] & Hc & _).
        rewrite Hcount in Hc. discriminate.
    + split; [discriminate |]. intros (_ & row & rest & n & Hd & _). discriminate.
  - split; [discriminate |]. intros [Hs _]. discriminate.
Qed.

(** When the callback of [verifyRecordNotExists] accepts a result. *)
Lemma expect_no_record_normal (tableName : string) (result : DbResult) :
  DbHelper.expect_no_record tableName result = Normal tt
  <-> success result = true
      /\ exists row rest,
           data result = Some (row :: rest)
           /\ row !! "count" = Some (JNum 0).
Proof.
  unfold DbHelper.expect_no_record, DbHelper.first_row_count, Chai.to_be_true, Chai.to_eq.
  destruct (success result); simpl.
  - destruct (data result) as [[|row rest]|]; simpl.
    + split; [discriminate |]. intros (_ & row & rest & Hd & _). discriminate.
    + rewrite chai_assert_normal, strict_equals_num.
      destruct (row !! "count") as [count|] eqn:Hcount; simpl.
      * split.
        -- intros ->. split; [reflexivity |]. exists row, rest. auto.
        -- intros (_ & row' & rest' & [= <- <-] & Hc).
           rewrite Hcount in Hc. now injection Hc.
      * split; [discriminate |].
        intros (_ & row' & rest' & [= <- <-] & Hc).
        rewrite Hcount in Hc. discriminate.
    + split; [discriminate |]. intros (_ & row & rest & Hd & _). discriminate.
  - split; [discriminate |]. intros [Hs _]. discriminate.
Qed.

Lemma then_run {A B} (subject : Chainable S A) (callback : A -> Completion B)
    (w : World S) :
  snd (then_ subject callback w) = snd (subject w)
  /\ fst (then_ subject callback w) = andThen (fst (subject w)) callback.
Proof. unfold then_. destruct (subject w) as [[a|e] w']; split; reflexivity. Qed.

(** C4. With a configuration stored, [verifyRecordExists] and
    [verifyRecordNotExists] queue the [dbQuery] task for the query
    "SELECT COUNT(*) as count FROM <table> WHERE <clause>" followed by
    their check.  The first passes if and only if the task yields a
    result with [success] true whose first row has a numeric [count]
    greater than 0, the second if and only if it yields a result with
    [success] true whose first row has [count] equal to 0.  Both fail
    the test when the result has [success] false and when the task
    itself fails, and both raise at once when no configuration is
    stored. *)
Theorem verifyRecord_checks_count
    (tableName whereClause : string) (this : DbHelper.Static) (w : World S) :
  (forall config,
      DbHelper.config this = Some config ->
      let issued :=
        task "dbQuery"
          (executeQuery sql
             ("SELECT COUNT(*) as count FROM " ++ tableName ++ " WHERE " ++ whereClause)
             config) in
      DbHelper.verifyRecordExists handlers tableName whereClause this
      = (Normal (then_ issued (DbHelper.expect_record tableName)), this)
      /\ DbHelper.verifyRecordNotExists handlers tableName whereClause this
         = (Normal (then_ issued (DbHelper.expect_no_record tableName)), this)
      /\ snd (then_ issued (DbHelper.expect_record tableName) w) = snd (issued w)
      /\ snd (then_ issued (DbHelper.expect_no_record tableName) w) = snd (issued w)
      /\ (fst (then_ issued (DbHelper.expect_record tableName) w) = Normal tt
          <-> exists result row rest n,
                fst (issued w) = Normal result
                /\ success result = true
                /\ data result = Some (row :: rest)
                /\ row !! "count" = Some (JNum n)
                /\ (0 < n)%Z)
      /\ (fst (then_ issued (DbHelper.expect_no_record tableName) w) = Normal tt
          <-> exists result row rest,
                fst (issued w) = Normal result
                /\ success result = true
                /\ data result = Some (row :: rest)
                /\ row !! "count" = Some (JNum 0))
      /\ (forall result,
             fst (issued w) = Normal result ->
             success result = false ->
             fst (then_ issued (DbHelper.expect_record tableName) w)
             = Throw (Chai.AssertionError "Database query should succeed")
             /\ fst (then_ issued (DbHelper.expect_no_record tableName) w)
                = Throw (Chai.AssertionError "Database query should succeed"))
      /\ (forall e,
             fst (issued w) = Throw e ->
             fst (then_ issued (DbHelper.expect_record tableName) w) = Throw e
             /\ fst (then_ issued (DbHelper.expect_no_record tableName) w) = Throw e))
  /\ (DbHelper.config this = None ->
      fst (DbHelper.verifyRecordExists handlers tableName whereClause this)
      = Throw (Error "Database configuration not set. Call DbHelper.setConfig() first.")
      /\ fst (DbHelper.verifyRecordNotExists handlers tableName whereClause this)
         = Throw (Error "Database configuration not set. Call DbHelper.setConfig() first.")).
Proof.
  split.
  - intros config Hconfig issued.
    destruct this as [stored]. simpl in Hconfig. subst stored.
    split; [reflexivity |]. split; [reflexivity |].
    destruct (then_run issued (DbHelper.expect_record tableName) w) as [Hw1 Hc1].
    destruct (then_run issued (DbHelper.expect_no_record tableName) w) as [Hw2 Hc2].
    split; [exact Hw1 |]. split; [exact Hw2 |].
    rewrite Hc1, Hc2. clear Hw1 Hw2 Hc1 Hc2.
    destruct (fst (issued w)) as [result|e]; simpl.
    + repeat match goal with |- _ /\ _ => split end.
      * rewrite expect_record_normal. split.
        -- intros (Hs & row & rest & n & Hd & Hc & Hpos).
           exists result, row, rest, n. auto.
        -- intros (result' & row & rest & n & [= <-] & Hs & Hd & Hc & Hpos).
           split; [exact Hs |]. exists row, rest, n. auto.
      * rewrite expect_no_record_normal. split.
        -- intros (Hs & row & rest & Hd & Hc). exists result, row, rest. auto.
        -- intros (result' & row & rest & [= <-] & Hs & Hd & Hc).
           split; [exact Hs |]. exists row, rest. auto.
      * intros result' [= <-] Hs.
        unfold DbHelper.expect_record, DbHelper.expect_no_record. rewrite Hs.
        split; reflexivity.
      * intros e He. discriminate.
    + repeat match goal with |- _ /\ _ => split end.
      * split; [discriminate |]. intros (result & row & rest & n & Hr & _). discriminate.
      * split; [discriminate |]. intros (result & row & rest & Hr & _). discriminate.
      * intros result Hr. discriminate.
      * intros e' [= <-]. split; reflexivity.
  - intros Hconfig. destruct this as [stored]. simpl in Hconfig. subst stored.
    split; reflexivity.
Qed.

End RecordChecks.

(** ** cypress.config.ts *)

Section EnvConfigClaims.
Import Eff CypressConfig.
Variable require : string -> Completion JsVal.

(** C3, amended. The environment name is [process.env.ENV], or 'dev' when
    the variable is unset (or empty).  Resolving the configuration never
    raises: when the module cypress/config/<environment>.config.ts loads
    and its [default] export can be read, that export is the
    configuration, nothing is logged and nothing is allocated, and for a
    module without default export the configuration is [undefined]; when
    loading the module or reading its export throws, one warning is
    written and the configuration is a new object whose only property is
    [baseUrl: 'https://example.cypress.io']. *)
Theorem envConfig_loads_or_defaults (ENV : option string) (node : Node) :
  (environment None = "dev"
   /\ environment (Some "") = "dev"
   /\ forall name, name <> "" -> environment (Some name) = name)
  /\ (exists config node', envConfig require ENV node = (Normal config, node'))
  /\ (forall exports config,
         require ("./cypress/config/" ++ environment ENV ++ ".config.ts") = Normal exports ->
         get_property exports "default" = Normal config ->
         envConfig require ENV node = (Normal config, node))
  /\ (forall e,
         require ("./cypress/config/" ++ environment ENV ++ ".config.ts") = Throw e
         \/ (exists exports,
                require ("./cypress/config/" ++ environment ENV ++ ".config.ts")
                = Normal exports
                /\ get_property exports "default" = Throw e) ->
         envConfig require ENV node
         = (Normal (JObject (next_id node) {[ "baseUrl" := JStr "https://example.cypress.io" ]}),
            {| warnings :=
                 warnings node
                 ++ ["Could not load config for environment: " ++ environment ENV
                     ++ ", using default config"];
               next_id := Pos.succ (next_id node) |}))
  /\ (forall id (props : gmap string JsVal),
         require ("./cypress/config/" ++ environment ENV ++ ".config.ts")
         = Normal (JObject id props) ->
         props !! "default" = None ->
         envConfig require ENV node = (Normal JUndefined, node)).
Proof.
  split.
  { split; [reflexivity |]. split; [reflexivity |].
    intros name Hname. unfold environment, or_string, truthy_string.
    destruct (String.eqb name "") eqn:Heq; [| reflexivity].
    apply String.eqb_eq in Heq. contradiction. }
  unfold envConfig, try_catch, lift_completion, bind, console_warn, object_literal, modify.
  destruct (require ("./cypress/config/" ++ environment ENV ++ ".config.ts"))
    as [exports|e0]; simpl.
  - destruct (get_property exports "default") as [config|e1] eqn:Hget; simpl.
    + split; [eauto |]. split; [| split].
      * intros exports' config' [= <-] Hget'.
        rewrite Hget in Hget'. injection Hget' as <-. reflexivity.
      * intros e [Habs | (exports' & [= <-] & Habs)]; [discriminate |].
        rewrite Hget in Habs. discriminate.
      * intros id props [= ->] Hnone. simpl in Hget. rewrite Hnone in Hget.
        simpl in Hget. injection Hget as <-. reflexivity.
    + split; [eauto |]. split; [| split].
      * intros exports' config' [= <-] Habs. rewrite Hget in Habs. discriminate.
      * intros e _. reflexivity.
      * intros id props [= ->] Hnone. simpl in Hget. discriminate.
  - split; [eauto |]. split; [| split].
    + intros exports config Habs. discriminate.
    + intros e _. reflexivity.
    + intros id props Habs. discriminate.
Qed.

End EnvConfigClaims.

(** C3, as stated, fails: a configuration module that loads but has no
    default export (a malformed export) is a failure to load the
    configuration, and for it the resolver neither warns nor returns the
    hard-coded default: [envConfig] is [undefined]. *)
Lemma envConfig_without_default_export_is_undefined :
  CypressConfig.envConfig ConfigFixtures.require_named_exports (Some "qa") fresh_node
  = (Normal JUndefined, fresh_node)
  /\ ~ (forall (require : string -> Completion JsVal) (ENV : option string)
               (node : CypressConfig.Node) (exports : JsVal),
           require ("./cypress/config/" ++ CypressConfig.environment ENV ++ ".config.ts")
           = Normal exports ->
           get_property exports "default" = Normal JUndefined ->
           CypressConfig.envConfig require ENV node
           = (Normal (JObject (CypressConfig.next_id node)
                        {[ "baseUrl" := JStr "https://example.cypress.io" ]}),
              {| CypressConfig.warnings :=
                   (CypressConfig.warnings node
                    ++ [("Could not load config for environment: "
                         ++ CypressConfig.environment ENV
                         ++ ", using default config")%string])%list;
                 CypressConfig.next_id := Pos.succ (CypressConfig.next_id node) |})).
Proof.
  split; [reflexivity |].
  intros H.
  specialize (H ConfigFixtures.require_named_exports (Some "qa") fresh_node
                ConfigFixtures.named_exports_only eq_refl).
  assert (Hget : get_property ConfigFixtures.named_exports_only "default" = Normal JUndefined)
    by reflexivity.
  specialize (H Hget). vm_compute in H. discriminate.
Qed.

Lemma envConfig_loads_or_defaults_witness :
  CypressConfig.envConfig require_qa_only (Some "qa") fresh_node
  = (Normal (JObject 21 (<[ "baseUrl" := JStr "https://qa.yourapp.com" ]>
                         {[ "env" := JObject 22 {[ "environment" := JStr "qa" ]} ]})),
     fresh_node)
  /\ CypressConfig.envConfig require_qa_only None fresh_node
     = (Normal (JObject 1 {[ "baseUrl" := JStr "https://example.cypress.io" ]}),
        {| CypressConfig.warnings :=
             ["Could not load config for environment: dev, using default config"];
           CypressConfig.next_id := 2 |}).
Proof.
  split.
  - apply (proj1 (proj2 (proj2 (envConfig_loads_or_defaults require_qa_only (Some "qa")
                                  fresh_node))) qa_module).
    + reflexivity.
    + reflexivity.
  - apply (proj1 (proj2 (proj2 (proj2 (envConfig_loads_or_defaults require_qa_only None
                                         fresh_node))))
             (Error "Cannot find module './cypress/config/dev.config.ts'")).
    left. reflexivity.
Defined.

(** ** The claims at sample inputs *)

Lemma verifyBodyPropertyValue_strict_equality_witness :
  type_of (JStr "1") = type_of (JStr "1")
  /\ ApiHelper.verifyBodyPropertyValue response_id_string "id" (JNum 1)
     = Throw (Chai.AssertionError "").
Proof.
  split.
  - apply (proj1 (proj2 verifyBodyPropertyValue_strict_equality)
             response_id_string "id" (JStr "1") (JStr "1")); reflexivity.
  - apply (proj1 (proj2 (proj2 (proj2 verifyBodyPropertyValue_strict_equality)))).
Defined.

Lemma tasks_capture_connect_and_execute_errors_witness :
  fst (DbTasks.executeQuery bad_sql "SELECT * FROM Users" localConfig start)
  = Normal {| DbTasks.success := false; DbTasks.data := None; DbTasks.rowsAffected := None;
              DbTasks.error := Some "Invalid object name 'Users'." |}
  /\ fst (DbTasks.executeQuery offline "SELECT * FROM Users" localConfig start)
     = Normal {| DbTasks.success := false; DbTasks.data := None; DbTasks.rowsAffected := None;
                 DbTasks.error := Some "Failed to connect to localhost:1433" |}
  /\ fst (DbTasks.executeStoredProcedure (healthy 3) "GetUserStatistics"
            (Some [("userId", JNum 1)]) localConfig start)
     = Normal {| DbTasks.success := true;
                 DbTasks.data := Some [ {[ "count" := JNum 3 ]} ];
                 DbTasks.rowsAffected := Some [1%Z];
                 DbTasks.error := None |}.
Proof.
  pose proof (tasks_capture_connect_and_execute_errors bad_sql "SELECT * FROM Users"
                "GetUserStatistics" None localConfig start) as Hbad.
  pose proof (tasks_capture_connect_and_execute_errors offline "SELECT * FROM Users"
                "GetUserStatistics" None localConfig start) as Hoff.
  pose proof (tasks_capture_connect_and_execute_errors (healthy 3) "SELECT * FROM Users"
                "GetUserStatistics" (Some [("userId", JNum 1)]) localConfig start) as Hok.
  split; [| split].
  - apply (proj1 (proj2 Hbad) 7%positive 1 invalid_object 2 3); reflexivity.
  - apply (proj1 Hoff unreachable 1). reflexivity.
  - apply (proj1 (proj2 (proj2 (proj2 (proj2 (proj2 (proj2 (proj2 Hok)))))))
             7%positive 1
             {| Mssql.req_pool := 7%positive; Mssql.req_inputs := [("userId", JNum 1)] |}
             (count_rows 3) 2 3); reflexivity.
Defined.

Lemma query_needs_config_then_reports_success_witness :
  DbHelper.query (DbTasks.registerDatabaseTasks (healthy 1)) "SELECT TOP 5 * FROM Users" None
    {| DbHelper.config := None |}
  = (Throw (Error "Database configuration not set. Call DbHelper.setConfig() first."),
     {| DbHelper.config := None |})
  /\ exists result,
       fst (Cy.task "dbQuery"
              (DbTasks.executeQuery (healthy 1) "SELECT TOP 5 * FROM Users" localConfig) start)
       = Normal result.
Proof.
  pose proof (query_needs_config_then_reports_success (healthy 1)
                "SELECT TOP 5 * FROM Users") as H.
  split.
  - apply (proj1 (proj2 H)). reflexivity.
  - apply (proj2 (proj2 (proj2 (proj2 H)))).
    intros p s1 c2 s2 _ _. reflexivity.
Defined.

Lemma verifyRecord_checks_count_witness :
  fst (Cy.then_
         (Cy.task "dbQuery"
            (DbTasks.executeQuery (healthy 1)
               "SELECT COUNT(*) as count FROM Users WHERE email = 'john.doe@example.com'"
               localConfig))
         (DbHelper.expect_record "Users") start)
  = Normal tt
  /\ fst (DbHelper.verifyRecordNotExists (DbTasks.registerDatabaseTasks (healthy 1))
            "Users" "email = 'john.doe@example.com'" DbHelper.initial)
     = Throw (Error "Database configuration not set. Call DbHelper.setConfig() first.").
Proof.
  split.
  - pose proof (proj1 (verifyRecord_checks_count (healthy 1) "Users"
                         "email = 'john.doe@example.com'"
                         {| DbHelper.config := Some localConfig |} start)
                  localConfig eq_refl) as H.
    cbv zeta in H.
    apply (proj1 (proj2 (proj2 (proj2 (proj2 H))))).
    exists (DbTasks.success_result (count_rows 1)), {[ "count" := JNum 1 ]}, [], 1%Z.
    repeat split.
  - apply (proj2 (verifyRecord_checks_count (healthy 1) "Users"
                    "email = 'john.doe@example.com'" DbHelper.initial start)).
    reflexivity.
Defined.

(** * Further properties of the helpers *)

(** ** getDbConfig *)

Section DatabaseConfigFacts.
Import Mssql DatabaseConfig.

(** X1. [getDbConfig] selects by the lower-cased environment name: it
    returns the QA configuration exactly for the names that lower-case to
    "qa", the staging configuration exactly for those that lower-case to
    "staging", and the development configuration for every other name and
    for a missing argument; names that differ in casing only select the
    same configuration. *)
Theorem getDbConfig_selects_by_lowercased_name :
  (forall environment,
      getDbConfig (Some environment) = qaDbConfig <-> toLowerCase environment = "qa")
  /\ (forall environment,
         getDbConfig (Some environment) = stagingDbConfig
         <-> toLowerCase environment = "staging")
  /\ (forall environment,
         toLowerCase environment <> "qa" ->
         toLowerCase environment <> "staging" ->
         getDbConfig (Some environment) = devDbConfig)
  /\ getDbConfig None = devDbConfig
  /\ (forall name1 name2,
         toLowerCase name1 = toLowerCase name2 ->
         getDbConfig (Some name1) = getDbConfig (Some name2)).
Proof.
  unfold getDbConfig. simpl.
  split; [| split; [| split; [| split]]].
  - intros environment.
    destruct (String.eqb (toLowerCase environment) "qa") eqn:Hqa.
    + apply String.eqb_eq in Hqa. split; [intros _; exact Hqa | reflexivity].
    + apply String.eqb_neq in Hqa.
      destruct (String.eqb (toLowerCase environment) "staging");
        (split; [discriminate | intros H; contradiction]).
  - intros environment.
    destruct (String.eqb (toLowerCase environment) "qa") eqn:Hqa.
    + apply String.eqb_eq in Hqa. rewrite Hqa. split; discriminate.
    + destruct (String.eqb (toLowerCase environment) "staging") eqn:Hst.
      * apply String.eqb_eq in Hst. split; [intros _; exact Hst | reflexivity].
      * apply String.eqb_neq in Hst. split; [discriminate | intros H; contradiction].
  - intros environment Hqa Hst.
    apply String.eqb_neq in Hqa, Hst. now rewrite Hqa, Hst.
  - reflexivity.
  - intros name1 name2 Heq. now rewrite Heq.
Qed.

Lemma getDbConfig_selects_by_lowercased_name_witness :
  getDbConfig (Some "prod") = devDbConfig
  /\ getDbConfig (Some "QA") = getDbConfig (Some "qa")
  /\ getDbConfig (Some "Staging") = stagingDbConfig.
Proof.
  split; [| split].
  - apply (proj1 (proj2 (proj2 getDbConfig_selects_by_lowercased_name))); discriminate.
  - apply (proj2 (proj2 (proj2 (proj2 getDbConfig_selects_by_lowercased_name)))).
    reflexivity.
  - apply (proj1 (proj2 getDbConfig_selects_by_lowercased_name)). reflexivity.
Defined.

End DatabaseConfigFacts.

(** ** The request helpers *)

Section RequestFacts.
Import Eff CyRequest ApiRequests.
Context {N : Type} (net : Network N).

(** X2. [get], [post], [put] and [delete] yield the response of the server
    whatever its status code, 4xx and 5xx included: the command fails only
    when the request fails on the network.  Hence
    [get(url).then(r => verifyStatusCode(r, code))] passes exactly when the
    server answered with the status [code]. *)
Theorem request_helpers_yield_any_status
    (url : string) (payload : JsVal) (headers : option (gmap string string)) (s : N) :
  (forall response,
      fst (net {| method := "GET"; url := url; body := None;
                  headers := default ∅ headers; failOnStatusCode := false |} s)
      = Normal response ->
      fst (get net url headers s) = Normal response)
  /\ (forall response,
         fst (net {| method := "POST"; url := url; body := Some payload;
                     headers := default ∅ headers; failOnStatusCode := false |} s)
         = Normal response ->
         fst (post net url payload headers s) = Normal response)
  /\ (forall response,
         fst (net {| method := "PUT"; url := url; body := Some payload;
                     headers := default ∅ headers; failOnStatusCode := false |} s)
         = Normal response ->
         fst (put net url payload headers s) = Normal response)
  /\ (forall response,
         fst (net {| method := "DELETE"; url := url; body := None;
                     headers := default ∅ headers; failOnStatusCode := false |} s)
         = Normal response ->
         fst (delete net url headers s) = Normal response)
  /\ (forall code : Z,
         andThen (fst (get net url headers s))
           (fun response => ApiHelper.verifyStatusCode response (JNum code))
         = Normal tt
         <-> exists response,
               fst (net {| method := "GET"; url := url; body := None;
                           headers := default ∅ headers; failOnStatusCode := false |} s)
               = Normal response
               /\ ApiHelper.status response = JNum code).
Proof.
  unfold get, post, put, delete.
  repeat match goal with |- _ /\ _ => split end.
  - intros response H. unfold request. simpl.
    destruct (net _ s) as [[r|e] s']; simpl in *; congruence.
  - intros response H. unfold request. simpl.
    destruct (net _ s) as [[r|e] s']; simpl in *; congruence.
  - intros response H. unfold request. simpl.
    destruct (net _ s) as [[r|e] s']; simpl in *; congruence.
  - intros response H. unfold request. simpl.
    destruct (net _ s) as [[r|e] s']; simpl in *; congruence.
  - intros code. unfold request. simpl.
    destruct (net _ s) as [[response|e] s']; simpl.
    + unfold ApiHelper.verifyStatusCode, Chai.to_eq.
      rewrite chai_assert_normal, strict_equals_num. split.
      * intros H. exists response. split; [reflexivity | exact H].
      * intros (response' & [= <-] & H). exact H.
    + split; [discriminate |]. intros (response & H & _). discriminate.
Qed.

End RequestFacts.

Lemma request_helpers_yield_any_status_witness :
  fst (ApiRequests.get RequestFixtures.not_found_server
         "https://jsonplaceholder.typicode.com/users/0" None 0)
  = Normal response_404
  /\ andThen (fst (ApiRequests.get RequestFixtures.not_found_server
                     "https://jsonplaceholder.typicode.com/users/0" None 0))
       (fun response => ApiHelper.verifyStatusCode response (JNum 404))
     = Normal tt.
Proof.
  pose proof (request_helpers_yield_any_status RequestFixtures.not_found_server
                "https://jsonplaceholder.typicode.com/users/0" JNull None 0) as H.
  split.
  - apply (proj1 H). reflexivity.
  - apply (proj2 (proj2 (proj2 (proj2 H))) 404%Z).
    exists response_404. split; reflexivity.
Defined.

(** With [failOnStatusCode] set, the same answer fails the command. *)
Example request_with_status_check_fails_on_404 :
  fst (CyRequest.request RequestFixtures.not_found_server
         {| CyRequest.method := "GET";
            CyRequest.url := "https://jsonplaceholder.typicode.com/users/0";
            CyRequest.body := None;
            CyRequest.headers := ∅;
            CyRequest.failOnStatusCode := true |} 0)
  = Throw (mkError "CypressError" "cy.request() failed on status code").
Proof. reflexivity. Qed.

(** ** The other checks of ApiHelper *)

Section ApiCheckFacts.
Import ApiHelper ApiChecks.

Lemma strict_equals_undefined_l (value : JsVal) :
  strict_equals JUndefined value = true -> value = JUndefined.
Proof. destruct value; simpl; intros H; try discriminate; reflexivity. Qed.

(** A property read that yields a defined value is the read of a property
    the value has. *)
Lemma get_property_defined (target : JsVal) (name : string) (value : JsVal) :
  get_property target name = Normal value ->
  value <> JUndefined ->
  to_have_property target name = Normal tt.
Proof.
  unfold to_have_property, has_property.
  destruct target as [| | b | n | | s | id props | id elems]; simpl;
    intros Hget Hdef; try discriminate;
    try (injection Hget as <-; contradiction).
  - destruct (String.eqb name "length"); simpl; [reflexivity |].
    injection Hget as <-.
    destruct (string_index_from 0 s name) as [v|]; simpl in *; [| contradiction].
    first [reflexivity | rewrite bool_decide_eq_true_2 by eauto; reflexivity].
  - injection Hget as <-.
    destruct (props !! name) as [v|]; simpl in *; [| contradiction].
    first [reflexivity | rewrite bool_decide_eq_true_2 by eauto; reflexivity].
  - destruct (String.eqb name "length"); simpl; [reflexivity |].
    injection Hget as <-.
    destruct (array_index_from 0 elems name) as [v|]; simpl in *; [| contradiction].
    first [reflexivity | rewrite bool_decide_eq_true_2 by eauto; reflexivity].
Qed.

(** X3. Whenever [verifyBodyPropertyValue(response, property, value)]
    passes for an expected value other than [undefined],
    [verifyBodyProperty(response, property)] passes as well: the value check
    subsumes the presence check.  With [undefined] as expected value this
    fails: on a body without the property the value check passes and the
    presence check does not. *)
Theorem verifyBodyPropertyValue_implies_verifyBodyProperty :
  (forall (response : ApiResponse) (property : string) (value : JsVal),
      value <> JUndefined ->
      verifyBodyPropertyValue response property value = Normal tt ->
      verifyBodyProperty response property = Normal tt)
  /\ verifyBodyPropertyValue response_id_string "name" JUndefined = Normal tt
  /\ verifyBodyProperty response_id_string "name" = Throw (Chai.AssertionError "").
Proof.
  split; [| split; vm_compute; reflexivity].
  intros response property value Hdef Hpass.
  unfold verifyBodyPropertyValue, Chai.to_eq in Hpass.
  destruct (get_property (body response) property) as [actual|e] eqn:Hget;
    simpl in Hpass; [| discriminate].
  apply chai_assert_normal in Hpass.
  unfold verifyBodyProperty. apply (get_property_defined _ _ actual Hget).
  intros ->. apply strict_equals_undefined_l in Hpass. contradiction.
Qed.

Lemma verifyBodyPropertyValue_implies_verifyBodyProperty_witness :
  verifyBodyProperty response_id_string "id" = Normal tt.
Proof.
  apply (proj1 verifyBodyPropertyValue_implies_verifyBodyProperty
           response_id_string "id" (JStr "1")).
  - discriminate.
  - reflexivity.
Defined.

Lemma verifyResponseTime_normal (response : ApiResponse) (maxDuration : Z) :
  verifyResponseTime response maxDuration = Normal tt
  <-> exists d, duration response = JNum d /\ (d < maxDuration)%Z.
Proof.
  unfold verifyResponseTime, to_be_lessThan.
  destruct (duration response) as [| | b | d | | s | id props | id elems];
    try (split; [discriminate | intros (d' & Hd & _); discriminate]).
  rewrite chai_assert_normal, Z.ltb_lt. split.
  - intros H. exists d. split; [reflexivity | exact H].
  - intros (d' & [= <-] & H). exact H.
Qed.

(** X4. [verifyResponseTime] is a strict bound: a response that took
    exactly [maxDuration] milliseconds fails, one that passes for a limit
    passes for every larger limit, and a response whose duration is not a
    number passes for no limit. *)
Theorem verifyResponseTime_strict_and_monotone (response : ApiResponse) :
  (forall d, duration response = JNum d ->
             verifyResponseTime response d = Throw (Chai.AssertionError ""))
  /\ (forall limit limit',
         (limit <= limit')%Z ->
         verifyResponseTime response limit = Normal tt ->
         verifyResponseTime response limit' = Normal tt)
  /\ ((forall d, duration response <> JNum d) ->
      forall limit, verifyResponseTime response limit = Throw (Chai.AssertionError "")).
Proof.
  split; [| split].
  - intros d Hd. unfold verifyResponseTime, to_be_lessThan. rewrite Hd.
    now rewrite Z.ltb_irrefl.
  - intros limit limit' Hle. rewrite !verifyResponseTime_normal.
    intros (d & Hd & Hlt). exists d. split; [exact Hd | lia].
  - intros Hnan limit. unfold verifyResponseTime, to_be_lessThan.
    destruct (duration response) as [| | b | d | | s | id props | id elems];
      try reflexivity.
    exfalso. now apply (Hnan d).
Qed.

Lemma verifyResponseTime_strict_and_monotone_witness :
  verifyResponseTime response_404 12 = Throw (Chai.AssertionError "")
  /\ verifyResponseTime response_404 2000 = Normal tt.
Proof.
  split.
  - apply (proj1 (verifyResponseTime_strict_and_monotone response_404)). reflexivity.
  - apply (proj1 (proj2 (verifyResponseTime_strict_and_monotone response_404)) 13%Z 2000%Z).
    + lia.
    + reflexivity.
Defined.

End ApiCheckFacts.

(** ** The other methods of DbHelper *)

Section DbHelperQueryFacts.
Import Eff Mssql DbTasks Cy DbHelperQueries.
Context {S : Type} (sql : Client S).
Local Abbreviation handlers := (registerDatabaseTasks sql).

Lemma then_return_run {A} (subject : Chainable S A) (callback : A -> Completion JsVal)
    (w : World S) :
  snd (then_return subject callback w) = snd (subject w)
  /\ fst (then_return subject callback w)
     = andThen (fst (subject w)) (fun a =>
         match callback a with
         | Normal JUndefined => Normal (inl a)
         | Normal v => Normal (inr v)
         | Throw e => Throw e
         end).
Proof. unfold then_return. destruct (subject w) as [[a|e] w']; split; reflexivity. Qed.

(** What the callback of [getRecordCount] returns. *)
Lemma return_count_normal (result : DbResult) (count : JsVal) :
  return_count result = Normal count
  <-> success result = true
      /\ exists row rest,
           data result = Some (row :: rest)
           /\ count = default JUndefined (row !! "count").
Proof.
  unfold return_count, DbHelper.first_row_count, Chai.to_be_true.
  destruct (success result); simpl.
  - destruct (data result) as [[|row rest]|]; simpl.
    + split; [discriminate |]. intros (_ & row & rest & Hd & _). discriminate.
    + split.
      * intros [= <-]. split; [reflexivity |]. exists row, rest. auto.
      * intros (_ & row' & rest' & [= <- <-] & ->). reflexivity.
    + split; [discriminate |]. intros (_ & row & rest & Hd & _). discriminate.
  - split; [discriminate |]. intros [Hs _]. discriminate.
Qed.

(** X5. [getRecordCount] treats an empty where-clause as no where-clause
    (the query has no WHERE part).  With a non-empty clause and a stored
    configuration it issues the COUNT query of [verifyRecordExists], and
    [verifyRecordExists(table, clause)] passes exactly when
    [getRecordCount(table, clause)] yields a number greater than 0. *)
Theorem getRecordCount_agrees_with_verifyRecordExists
    (tableName : string) (this : DbHelper.Static) :
  getRecordCount handlers tableName (Some "") this
  = getRecordCount handlers tableName None this
  /\ (forall config,
         DbHelper.config this = Some config ->
         getRecordCount handlers tableName None this
         = (Normal (then_return
                      (task "dbQuery"
                         (executeQuery sql ("SELECT COUNT(*) as count FROM " ++ tableName)
                            config))
                      return_count), this))
  /\ (forall whereClause config (w : World S),
         whereClause <> "" ->
         DbHelper.config this = Some config ->
         let issued :=
           task "dbQuery"
             (executeQuery sql
                ("SELECT COUNT(*) as count FROM " ++ tableName ++ " WHERE " ++ whereClause)
                config) in
         getRecordCount handlers tableName (Some whereClause) this
         = (Normal (then_return issued return_count), this)
         /\ (fst (then_ issued (DbHelper.expect_record tableName) w) = Normal tt
             <-> exists n,
                   fst (then_return issued return_count w) = Normal (inr (JNum n))
                   /\ (0 < n)%Z)).
Proof.
  split; [reflexivity |]. split.
  - intros config Hconfig. destruct this as [stored]. simpl in Hconfig. subst stored.
    reflexivity.
  - intros whereClause config w Hne Hconfig issued.
    destruct this as [stored]. simpl in Hconfig. subst stored.
    split.
    + unfold getRecordCount, truthy_string.
      destruct (String.eqb whereClause "") eqn:Heq.
      * apply String.eqb_eq in Heq. contradiction.
      * reflexivity.
    + destruct (then_run issued (DbHelper.expect_record tableName) w) as [_ Hc1].
      destruct (then_return_run issued return_count w) as [_ Hc2].
      rewrite Hc1, Hc2. clear Hc1 Hc2.
      destruct (fst (issued w)) as [result|e]; simpl.
      * rewrite expect_record_normal. split.
        -- intros (Hs & row & rest & n & Hd & Hc & Hpos). exists n.
           split; [| exact Hpos].
           assert (Hret : return_count result = Normal (JNum n)).
           { apply return_count_normal. split; [exact Hs |].
             exists row, rest. split; [exact Hd |]. now rewrite Hc. }
           now rewrite Hret.
        -- intros (n & Hyield & Hpos).
           destruct (return_count result) as [count|e] eqn:Hret; [| discriminate].
           assert (count = JNum n) as ->.
           { destruct count; try discriminate; now injection Hyield as <-. }
           apply return_count_normal in Hret as (Hs & row & rest & Hd & Hc).
           split; [exact Hs |]. exists row, rest, n.
           split; [exact Hd |]. split; [| exact Hpos].
           destruct (row !! "count") as [v|]; simpl in Hc; [now subst v | discriminate].
      * split; [discriminate |]. intros (n & H & _). discriminate.
Qed.

(** When the callback of [verifyFieldValue] accepts a result. *)
Lemma expect_field_normal (fieldName : string) (expectedValue : JsVal) (result : DbResult) :
  expect_field fieldName expectedValue result = Normal tt
  <-> success result = true
      /\ exists row rest,
           data result = Some (row :: rest)
           /\ strict_equals (default JUndefined (row !! fieldName)) expectedValue = true.
Proof.
  unfold expect_field, to_have_length_greaterThan, first_row_field, Chai.to_be_true,
    Chai.to_eq.
  destruct (success result); simpl.
  - destruct (data result) as [[|row rest]|]; simpl.
    + split; [discriminate |]. intros (_ & row & rest & Hd & _). discriminate.
    + rewrite chai_assert_normal. split.
      * intros H. split; [reflexivity |]. exists row, rest. auto.
      * intros (_ & row' & rest' & [= <- <-] & H). exact H.
    + split; [discriminate |]. intros (_ & row & rest & Hd & _). discriminate.
  - split; [discriminate |]. intros [Hs _]. discriminate.
Qed.

(** X6. [verifyFieldValue] passes exactly when the query succeeded,
    returned at least one row, and the field of the first row is strictly
    equal to the expected value.  Only the first row is looked at: the
    other rows never change the verdict.  A field the row does not have
    (and no object inherits) reads as [undefined], so it passes for the
    expected value [undefined] and for no other. *)
Theorem verifyFieldValue_checks_first_row
    (tableName fieldName whereClause : string) (expectedValue : JsVal)
    (this : DbHelper.Static) (w : World S) :
  (forall config,
      DbHelper.config this = Some config ->
      let issued :=
        task "dbQuery"
          (executeQuery sql
             ("SELECT " ++ fieldName ++ " FROM " ++ tableName ++ " WHERE " ++ whereClause)
             config) in
      verifyFieldValue handlers tableName fieldName expectedValue whereClause this
      = (Normal (then_ issued (expect_field fieldName expectedValue)), this)
      /\ (fst (then_ issued (expect_field fieldName expectedValue) w) = Normal tt
          <-> exists result row rest,
                fst (issued w) = Normal result
                /\ success result = true
                /\ data result = Some (row :: rest)
                /\ strict_equals (default JUndefined (row !! fieldName)) expectedValue
                   = true))
  /\ (forall row rest rest' affected,
         expect_field fieldName expectedValue
           {| success := true; data := Some (row :: rest); rowsAffected := affected;
              error := None |}
         = expect_field fieldName expectedValue
             {| success := true; data := Some (row :: rest'); rowsAffected := affected;
                error := None |})
  /\ (forall (row : gmap string JsVal) rest affected,
         fieldName ∉ ObjectPrototype.members ->
         row !! fieldName = None ->
         (expect_field fieldName expectedValue
            {| success := true; data := Some (row :: rest); rowsAffected := affected;
               error := None |} = Normal tt
          <-> expectedValue = JUndefined)).
Proof.
  split; [| split].
  - intros config Hconfig issued.
    destruct this as [stored]. simpl in Hconfig. subst stored.
    split; [reflexivity |].
    destruct (then_run issued (expect_field fieldName expectedValue) w) as [_ Hc].
    rewrite Hc. clear Hc.
    destruct (fst (issued w)) as [result|e]; simpl.
    + rewrite expect_field_normal. split.
      * intros (Hs & row & rest & Hd & Heq). exists result, row, rest. auto.
      * intros (result' & row & rest & [= <-] & Hs & Hd & Heq).
        split; [exact Hs |]. exists row, rest. auto.
    + split; [discriminate |]. intros (result & row & rest & H & _). discriminate.
  - intros row rest rest' affected. reflexivity.
  - intros row rest affected _ Hnone. rewrite expect_field_normal. simpl. split.
    + intros (_ & row' & rest' & [= <- <-] & Heq).
      rewrite Hnone in Heq. simpl in Heq. now apply strict_equals_undefined_l.
    + intros ->. split; [reflexivity |]. exists row, rest.
      split; [reflexivity |]. rewrite Hnone. reflexivity.
Qed.

End DbHelperQueryFacts.

Lemma getRecordCount_agrees_with_verifyRecordExists_witness :
  fst (DbHelperQueries.then_return
         (Cy.task "dbQuery"
            (DbTasks.executeQuery (healthy 3) "SELECT COUNT(*) as count FROM Users WHERE active = 1"
               localConfig))
         DbHelperQueries.return_count start)
  = Normal (inr (JNum 3))
  /\ exists n,
       fst (DbHelperQueries.then_return
              (Cy.task "dbQuery"
                 (DbTasks.executeQuery (healthy 3)
                    "SELECT COUNT(*) as count FROM Users WHERE active = 1" localConfig))
              DbHelperQueries.return_count start)
       = Normal (inr (JNum n))
       /\ (0 < n)%Z.
Proof.
  split; [reflexivity |].
  pose proof (proj2 (proj2 (getRecordCount_agrees_with_verifyRecordExists (healthy 3) "Users"
                              {| DbHelper.config := Some localConfig |}))
                "active = 1" localConfig start) as H.
  cbv zeta in H.
  apply (proj2 (H ltac:(discriminate) eq_refl)). reflexivity.
Defined.

Lemma verifyFieldValue_checks_first_row_witness :
  fst (Cy.then_
         (Cy.task "dbQuery"
            (DbTasks.executeQuery (healthy 3) "SELECT count FROM Users WHERE id = 1" localConfig))
         (DbHelperQueries.expect_field "count" (JNum 3)) start)
  = Normal tt
  /\ (DbHelperQueries.expect_field "email" JUndefined
        {| DbTasks.success := true; DbTasks.data := Some [ {[ "count" := JNum 3 ]} ];
           DbTasks.rowsAffected := Some [1%Z]; DbTasks.error := None |}
      = Normal tt).
Proof.
  split.
  - pose proof (proj1 (verifyFieldValue_checks_first_row (healthy 3) "Users" "count" "id = 1"
                         (JNum 3) {| DbHelper.config := Some localConfig |} start)
                  localConfig eq_refl) as H.
    cbv zeta in H. apply (proj2 H).
    exists (DbTasks.success_result (count_rows 3)), {[ "count" := JNum 3 ]}, [].
    repeat split.
  - refine (proj2 (proj2 (proj2 (verifyFieldValue_checks_first_row (healthy 3) "Users" "email"
                                   "id = 1" JUndefined
                                   {| DbHelper.config := Some localConfig |} start))
                     {[ "count" := JNum 3 ]} [] (Some [1%Z]) _ _) _);
      [apply (bool_decide_unpack _); vm_compute; exact I | reflexivity | reflexivity].
Defined.

Section CleanupAndCounts.
Import Eff Mssql DbTasks Cy DbHelperQueries.
Context {S : Type} (sql : Client S).
Local Abbreviation handlers := (registerDatabaseTasks sql).

(** X7. [deleteRecords] queues the DELETE statement and attaches no check:
    when the connect or the statement throws (and the pool closes), the
    command still yields, with [success: false] and the message of the
    error, so the failed clean-up does not fail the test.  Without a stored
    configuration the call raises at once. *)
Theorem deleteRecords_yields_the_raw_result
    (tableName whereClause : string) (this : DbHelper.Static) (w : World S) :
  (forall config,
      DbHelper.config this = Some config ->
      let issued :=
        task "dbQuery"
          (executeQuery sql ("DELETE FROM " ++ tableName ++ " WHERE " ++ whereClause) config) in
      deleteRecords handlers tableName whereClause this = (Normal issued, this)
      /\ (forall e s1,
             connect sql config (driver w) = (Throw e, s1) ->
             fst (issued w)
             = Normal {| success := false; data := None; rowsAffected := None;
                         error := Some (err_message e) |})
      /\ (forall p s1 e s2 s3,
             connect sql config (driver w) = (Normal p, s1) ->
             Mssql.query sql (pool_request p)
               ("DELETE FROM " ++ tableName ++ " WHERE " ++ whereClause) s1
             = (Throw e, s2) ->
             close sql p s2 = (Normal tt, s3) ->
             fst (issued w)
             = Normal {| success := false; data := None; rowsAffected := None;
                         error := Some (err_message e) |}))
  /\ (DbHelper.config this = None ->
      fst (deleteRecords handlers tableName whereClause this)
      = Throw (Error "Database configuration not set. Call DbHelper.setConfig() first.")).
Proof.
  split.
  - intros config Hconfig issued.
    destruct this as [stored]. simpl in Hconfig. subst stored.
    split; [reflexivity |]. subst issued. split.
    + intros e s1 Hconnect. rewrite task_dbQuery_run, executeQuery_run, Hconnect.
      reflexivity.
    + intros p s1 e s2 s3 Hconnect Hquery Hclose.
      rewrite task_dbQuery_run, executeQuery_run, Hconnect, Hquery, Hclose.
      reflexivity.
  - intros Hconfig. destruct this as [stored]. simpl in Hconfig. subst stored.
    reflexivity.
Qed.

(** X9. On the result of one and the same query the checks of
    [verifyRecordExists] and of [verifyRecordNotExists] never both pass;
    when the query succeeded and the count of its first row is a number
    that is not negative, exactly one of them passes. *)
Theorem record_checks_are_exclusive
    (tableName tableName' query : string) (config : DbConfig) (w : World S) :
  ~ (fst (then_ (task "dbQuery" (executeQuery sql query config))
            (DbHelper.expect_record tableName) w) = Normal tt
     /\ fst (then_ (task "dbQuery" (executeQuery sql query config))
               (DbHelper.expect_no_record tableName') w) = Normal tt)
  /\ (forall result row rest n,
         fst (task "dbQuery" (executeQuery sql query config) w) = Normal result ->
         success result = true ->
         data result = Some (row :: rest) ->
         row !! "count" = Some (JNum n) ->
         (0 <= n)%Z ->
         (fst (then_ (task "dbQuery" (executeQuery sql query config))
                 (DbHelper.expect_record tableName) w) = Normal tt
          /\ fst (then_ (task "dbQuery" (executeQuery sql query config))
                    (DbHelper.expect_no_record tableName') w)
             = Throw (Chai.AssertionError ("Record should not exist in " ++ tableName')))
         \/ (fst (then_ (task "dbQuery" (executeQuery sql query config))
                    (DbHelper.expect_no_record tableName') w) = Normal tt
             /\ fst (then_ (task "dbQuery" (executeQuery sql query config))
                       (DbHelper.expect_record tableName) w)
                = Throw (Chai.AssertionError ("Record should exist in " ++ tableName)))).
Proof.
  destruct (then_run (task "dbQuery" (executeQuery sql query config))
              (DbHelper.expect_record tableName) w) as [_ Hc1].
  destruct (then_run (task "dbQuery" (executeQuery sql query config))
              (DbHelper.expect_no_record tableName') w) as [_ Hc2].
  rewrite Hc1, Hc2. clear Hc1 Hc2.
  destruct (fst (task "dbQuery" (executeQuery sql query config) w)) as [result|e]; simpl.
  - split.
    + rewrite expect_record_normal, expect_no_record_normal.
      intros [(_ & row & rest & n & Hd & Hc & Hpos) (_ & row' & rest' & Hd' & Hc')].
      rewrite Hd in Hd'. injection Hd' as <- <-.
      rewrite Hc in Hc'. injection Hc' as ->. lia.
    + intros result' row rest n [= <-] Hs Hd Hc Hn.
      unfold DbHelper.expect_record, DbHelper.expect_no_record, DbHelper.first_row_count,
        Chai.to_be_true, Chai.to_eq, Chai.to_be_greaterThan.
      rewrite Hs, Hd, Hc. simpl.
      destruct (Z.eq_dec n 0) as [-> | Hne].
      * right. split; reflexivity.
      * left. assert (Hlt : (0 <? n)%Z = true) by (apply Z.ltb_lt; lia).
        assert (Heq : (n =? 0)%Z = false) by (apply Z.eqb_neq; exact Hne).
        rewrite Hlt, Heq. split; reflexivity.
  - split.
    + intros [H _]. discriminate.
    + intros result row rest n H. discriminate.
Qed.

Lemma record_checks_are_exclusive_example :
  fst (then_ (task "dbQuery" (executeQuery (healthy 0) "SELECT 1" localConfig))
         (DbHelper.expect_no_record "Users") start) = Normal tt.
Proof. reflexivity. Qed.

(** X11. A task writes to [console.error] exactly when connecting,
    binding an input or executing throws: one line, holding that error,
    whether or not [pool.close()] throws afterwards; when none of them
    throws it writes nothing.  Whenever the task returns, its result has
    [success: false] exactly when a line was written, and the message in
    the result is the message of the error in that line. *)
Theorem tasks_log_the_error_they_report
    (query procedureName : string) (parameters : option (list (string * JsVal)))
    (config : DbConfig) (w : World S) :
  (* executeQuery *)
  (forall e s1,
      connect sql config (driver w) = (Throw e, s1) ->
      console (snd (executeQuery sql query config w))
      = (console w ++ [("Database query error:", e)])%list)
  /\ (forall p s1 e s2,
         connect sql config (driver w) = (Normal p, s1) ->
         Mssql.query sql (pool_request p) query s1 = (Throw e, s2) ->
         console (snd (executeQuery sql query config w))
         = (console w ++ [("Database query error:", e)])%list)
  /\ (forall p s1 rows s2,
         connect sql config (driver w) = (Normal p, s1) ->
         Mssql.query sql (pool_request p) query s1 = (Normal rows, s2) ->
         console (snd (executeQuery sql query config w)) = console w)
  /\ (forall result,
         fst (executeQuery sql query config w) = Normal result ->
         (success result = true
          /\ console (snd (executeQuery sql query config w)) = console w)
         \/ (success result = false
             /\ exists e,
                  console (snd (executeQuery sql query config w))
                  = (console w ++ [("Database query error:", e)])%list
                  /\ error result = Some (err_message e)))
  (* executeStoredProcedure *)
  /\ (forall e s1,
         connect sql config (driver w) = (Throw e, s1) ->
         console (snd (executeStoredProcedure sql procedureName parameters config w))
         = (console w ++ [("Stored procedure error:", e)])%list)
  /\ (forall p s1 e,
         connect sql config (driver w) = (Normal p, s1) ->
         add_parameters sql (pool_request p) (Object_keys (default [] parameters))
           (default [] parameters) = Throw e ->
         console (snd (executeStoredProcedure sql procedureName parameters config w))
         = (console w ++ [("Stored procedure error:", e)])%list)
  /\ (forall p s1 request e s2,
         connect sql config (driver w) = (Normal p, s1) ->
         add_parameters sql (pool_request p) (Object_keys (default [] parameters))
           (default [] parameters) = Normal request ->
         execute sql request procedureName s1 = (Throw e, s2) ->
         console (snd (executeStoredProcedure sql procedureName parameters config w))
         = (console w ++ [("Stored procedure error:", e)])%list)
  /\ (forall p s1 request rows s2,
         connect sql config (driver w) = (Normal p, s1) ->
         add_parameters sql (pool_request p) (Object_keys (default [] parameters))
           (default [] parameters) = Normal request ->
         execute sql request procedureName s1 = (Normal rows, s2) ->
         console (snd (executeStoredProcedure sql procedureName parameters config w))
         = console w)
  /\ (forall result,
         fst (executeStoredProcedure sql procedureName parameters config w) = Normal result ->
         (success result = true
          /\ console (snd (executeStoredProcedure sql procedureName parameters config w))
             = console w)
         \/ (success result = false
             /\ exists e,
                  console (snd (executeStoredProcedure sql procedureName parameters config w))
                  = (console w ++ [("Stored procedure error:", e)])%list
                  /\ error result = Some (err_message e))).
Proof.
  rewrite executeQuery_run, executeStoredProcedure_run.
  repeat match goal with |- _ /\ _ => split end.
  - intros e s1 ->. reflexivity.
  - intros p s1 e s2 -> ->. destruct (close sql p s2) as [c3 s3]. reflexivity.
  - intros p s1 rows s2 -> ->. destruct (close sql p s2) as [c3 s3]. reflexivity.
  - destruct (connect sql config (driver w)) as [[p|e] s1].
    + destruct (Mssql.query sql (pool_request p) query s1) as [[rows|e] s2];
        destruct (close sql p s2) as [[[]|e3] s3]; simpl;
        intros result H; try discriminate; injection H as <-.
      * left. split; reflexivity.
      * right. split; [reflexivity |]. exists e. split; reflexivity.
    + simpl. intros result H. injection H as <-.
      right. split; [reflexivity |]. exists e. split; reflexivity.
  - intros e s1 ->. reflexivity.
  - intros p s1 e -> ->. destruct (close sql p s1) as [c3 s3]. reflexivity.
  - intros p s1 request e s2 -> -> ->. destruct (close sql p s2) as [c3 s3]. reflexivity.
  - intros p s1 request rows s2 -> -> ->. destruct (close sql p s2) as [c3 s3].
    reflexivity.
  - destruct (connect sql config (driver w)) as [[p|e] s1].
    + destruct (add_parameters sql (pool_request p) (Object_keys (default [] parameters))
                  (default [] parameters)) as [request|e].
      * destruct (execute sql request procedureName s1) as [[rows|e] s2];
          destruct (close sql p s2) as [[[]|e3] s3]; simpl;
          intros result H; try discriminate; injection H as <-.
        -- left. split; reflexivity.
        -- right. split; [reflexivity |]. exists e. split; reflexivity.
      * destruct (close sql p s1) as [[[]|e3] s3]; simpl;
          intros result H; try discriminate; injection H as <-.
        right. split; [reflexivity |]. exists e. split; reflexivity.
    + simpl. intros result H. injection H as <-.
      right. split; [reflexivity |]. exists e. split; reflexivity.
Qed.

End CleanupAndCounts.

Lemma deleteRecords_yields_the_raw_result_witness :
  fst (Cy.task "dbQuery"
         (DbTasks.executeQuery bad_sql "DELETE FROM Users WHERE email LIKE '%@test.com'"
            localConfig) start)
  = Normal {| DbTasks.success := false; DbTasks.data := None; DbTasks.rowsAffected := None;
              DbTasks.error := Some "Invalid object name 'Users'." |}.
Proof.
  pose proof (proj1 (deleteRecords_yields_the_raw_result bad_sql "Users"
                       "email LIKE '%@test.com'"
                       {| DbHelper.config := Some localConfig |} start)
                localConfig eq_refl) as H.
  cbv zeta in H.
  apply (proj2 (proj2 H) 7%positive 1 invalid_object 2 3); reflexivity.
Defined.

Lemma record_checks_are_exclusive_witness :
  (fst (Cy.then_ (Cy.task "dbQuery" (DbTasks.executeQuery (healthy 2) "SELECT 1" localConfig))
          (DbHelper.expect_record "Users") start) = Normal tt
   /\ fst (Cy.then_ (Cy.task "dbQuery"
                       (DbTasks.executeQuery (healthy 2) "SELECT 1" localConfig))
             (DbHelper.expect_no_record "Users") start)
      = Throw (Chai.AssertionError "Record should not exist in Users"))
  \/ (fst (Cy.then_ (Cy.task "dbQuery"
                       (DbTasks.executeQuery (healthy 2) "SELECT 1" localConfig))
             (DbHelper.expect_no_record "Users") start) = Normal tt
      /\ fst (Cy.then_ (Cy.task "dbQuery"
                          (DbTasks.executeQuery (healthy 2) "SELECT 1" localConfig))
                (DbHelper.expect_record "Users") start)
         = Throw (Chai.AssertionError "Record should exist in Users")).
Proof.
  apply (proj2 (record_checks_are_exclusive (healthy 2) "Users" "Users" "SELECT 1"
                  localConfig start)
           (DbTasks.success_result (count_rows 2)) {[ "count" := JNum 2 ]} [] 2%Z);
    try reflexivity.
  lia.
Defined.

Lemma tasks_log_the_error_they_report_witness :
  Mssql.console
    (snd (DbTasks.executeQuery
            (scripted (Normal 7%positive) (Throw invalid_object) (Normal tt)
               (Throw close_failed))
            "SELECT * FROM Users" localConfig start))
  = [("Database query error:", invalid_object)]
  /\ Mssql.console (snd (DbTasks.executeQuery (healthy 1) "SELECT * FROM Users" localConfig
                           start))
     = []
  /\ ((DbTasks.success (DbTasks.failure_result invalid_object) = true
       /\ Mssql.console
            (snd (DbTasks.executeQuery bad_sql "SELECT * FROM Users" localConfig start))
          = Mssql.console start)
      \/ (DbTasks.success (DbTasks.failure_result invalid_object) = false
          /\ exists e,
               Mssql.console
                 (snd (DbTasks.executeQuery bad_sql "SELECT * FROM Users" localConfig start))
               = (Mssql.console start ++ [("Database query error:", e)])%list
               /\ DbTasks.error (DbTasks.failure_result invalid_object)
                  = Some (err_message e))).
Proof.
  split; [| split].
  - apply (proj1 (proj2 (tasks_log_the_error_they_report
                           (scripted (Normal 7%positive) (Throw invalid_object) (Normal tt)
                              (Throw close_failed))
                           "SELECT * FROM Users" "p" None localConfig start))
             7%positive 1 invalid_object 2); reflexivity.
  - apply (proj1 (proj2 (proj2 (tasks_log_the_error_they_report (healthy 1)
                                  "SELECT * FROM Users" "p" None localConfig start)))
             7%positive 1 (count_rows 1) 2); reflexivity.
  - apply (proj1 (proj2 (proj2 (proj2 (tasks_log_the_error_they_report bad_sql
                                         "SELECT * FROM Users" "p" None localConfig start))))).
    reflexivity.
Defined.

(** ** Binding the parameters of a stored procedure *)

Section ParameterBinding.
Import Eff Mssql DbTasks.
Context {S : Type} (sql : Client S).

(** The inputs a request holds once every key was accepted. *)
Lemma add_parameters_inputs (keys : list string) (parameters : list (string * JsVal)) :
  forall request request' : Request,
    add_parameters sql request keys parameters = Normal request' ->
    req_inputs request'
    = (req_inputs request ++ map (fun key => (key, parameter parameters key)) keys)%list.
Proof.
  induction keys as [|key rest IH]; simpl; intros request request' H.
  - injection H as <-. now rewrite app_nil_r.
  - unfold request_input in H.
    destruct (input sql request key (parameter parameters key)); simpl in H;
      [| discriminate].
    apply IH in H. simpl in H. now rewrite H, <- app_assoc.
Qed.

(** Reading every key of an object with distinct keys gives its entries. *)
Lemma entries_of_keys (parameters : list (string * JsVal)) :
  NoDup (Object_keys parameters) ->
  map (fun key => (key, parameter parameters key)) (Object_keys parameters) = parameters.
Proof.
  unfold Object_keys. induction parameters as [|[k v] rest IH]; simpl; intros Hnodup.
  - reflexivity.
  - apply NoDup_cons in Hnodup as [Hnotin Hnodup].
    rewrite String.eqb_refl. f_equal.
    rewrite <- (IH Hnodup) at 2.
    apply map_ext_in. intros key Hin.
    destruct (String.eqb k key) eqn:Heq; [| reflexivity].
    apply String.eqb_eq in Heq. subst key.
    apply list_elem_of_In in Hin. contradiction.
Qed.

(** X8. [executeStoredProcedure] binds the parameters before it executes,
    all or nothing: when [request.input] refuses one of them the procedure
    is never executed (the pool is opened and closed, nothing else) and the
    task returns the refusal as [success: false]; when every input of the
    call is accepted the procedure is executed once, on a request that
    holds every entry of the parameter object, in the order of its keys.
    A missing parameter object is an empty one. *)
Theorem stored_procedure_binds_all_parameters_or_does_not_run
    (procedureName : string) (parameters : list (string * JsVal))
    (config : DbConfig) (w : World S) :
  (forall p s1 e,
      connect sql config (driver w) = (Normal p, s1) ->
      add_parameters sql (pool_request p) (Object_keys parameters) parameters = Throw e ->
      trace (snd (executeStoredProcedure sql procedureName (Some parameters) config w))
      = (trace w ++ [EvConnect config (Some p); EvClose p])%list
      /\ (forall s3,
             close sql p s1 = (Normal tt, s3) ->
             fst (executeStoredProcedure sql procedureName (Some parameters) config w)
             = Normal (failure_result e)))
  /\ (forall p s1 request,
         connect sql config (driver w) = (Normal p, s1) ->
         NoDup (Object_keys parameters) ->
         add_parameters sql (pool_request p) (Object_keys parameters) parameters
         = Normal request ->
         request = {| req_pool := p; req_inputs := parameters |}
         /\ trace (snd (executeStoredProcedure sql procedureName (Some parameters) config w))
            = (trace w ++ [EvConnect config (Some p);
                           EvExecute p procedureName parameters;
                           EvClose p])%list)
  /\ executeStoredProcedure sql procedureName None config w
     = executeStoredProcedure sql procedureName (Some []) config w.
Proof.
  split; [| split; [| reflexivity]]; rewrite executeStoredProcedure_run; simpl.
  - intros p s1 e Hconnect Hadd. rewrite Hconnect, Hadd.
    destruct (close sql p s1) as [c3 s3'] eqn:Hclose. simpl. split.
    + now rewrite <- app_assoc.
    + intros s3 [= -> <-]. reflexivity.
  - intros p s1 request Hconnect Hnodup Hadd. rewrite Hconnect, Hadd.
    pose proof (add_parameters_pool sql _ _ _ _ Hadd) as Hpool.
    pose proof (add_parameters_inputs _ _ _ _ Hadd) as Hinputs.
    simpl in Hpool, Hinputs. rewrite (entries_of_keys parameters Hnodup) in Hinputs.
    split.
    + destruct request as [pool inputs]. simpl in Hpool, Hinputs. now subst.
    + destruct (execute sql request procedureName s1) as [c2 s2].
      destruct (close sql p s2) as [c3 s3]. simpl.
      rewrite Hpool, Hinputs. now rewrite <- !app_assoc.
Qed.

End ParameterBinding.

Lemma stored_procedure_binds_all_parameters_or_does_not_run_witness :
  Mssql.trace
    (snd (DbTasks.executeStoredProcedure (healthy 1) "GetUserStatistics"
            (Some [("userId", JNum 1); ("active", JBool true)]) localConfig start))
  = [Mssql.EvConnect localConfig (Some 7%positive);
     Mssql.EvExecute 7%positive "GetUserStatistics"
       [("userId", JNum 1); ("active", JBool true)];
     Mssql.EvClose 7%positive]
  /\ Mssql.trace
       (snd (DbTasks.executeStoredProcedure
               (scripted (Normal 7%positive) (Normal (count_rows 1))
                  (Throw (Error "SQL injection warning for param 'user id'")) (Normal tt))
               "GetUserStatistics" (Some [("user id", JNum 1)]) localConfig start))
     = [Mssql.EvConnect localConfig (Some 7%positive); Mssql.EvClose 7%positive].
Proof.
  split.
  - apply (proj1 (proj2 (stored_procedure_binds_all_parameters_or_does_not_run (healthy 1)
                           "GetUserStatistics" [("userId", JNum 1); ("active", JBool true)]
                           localConfig start)) 7%positive 1
             {| Mssql.req_pool := 7%positive;
                Mssql.req_inputs := [("userId", JNum 1); ("active", JBool true)] |}).
    + reflexivity.
    + apply (bool_decide_unpack _). vm_compute. exact I.
    + reflexivity.
  - apply (proj1 (stored_procedure_binds_all_parameters_or_does_not_run
                    (scripted (Normal 7%positive) (Normal (count_rows 1))
                       (Throw (Error "SQL injection warning for param 'user id'"))
                       (Normal tt))
                    "GetUserStatistics" [("user id", JNum 1)] localConfig start)
             7%positive 1 (Error "SQL injection warning for param 'user id'")).
    + reflexivity.
    + reflexivity.
Defined.

(** ** The e2e block of cypress.config.ts *)

Section E2eFacts.
Import Eff CypressConfig E2eConfig.
Variable require : string -> Completion JsVal.

(** X10. In [e2e: { ...envConfig, setupNodeEvents }] the method of the file
    always wins: whatever the environment configuration holds under
    [setupNodeEvents] is overridden, and every other property of the
    environment configuration is copied as it is.  When the environment
    module cannot be loaded, [e2e] holds exactly the default [baseUrl] and
    [setupNodeEvents]. *)
Theorem e2e_keeps_setupNodeEvents_and_copies_the_rest (ENV : option string) (node : Node) :
  (forall envConfig, e2e envConfig !! "setupNodeEvents" = Some setupNodeEvents)
  /\ (forall envConfig key,
         key <> "setupNodeEvents" ->
         e2e envConfig !! key = FromEnvConfig <$> (spread envConfig !! key))
  /\ (forall e,
         require ("./cypress/config/" ++ environment ENV ++ ".config.ts") = Throw e ->
         exists config node',
           envConfig require ENV node = (Normal config, node')
           /\ e2e config
              = <[ "setupNodeEvents" := setupNodeEvents ]>
                  {[ "baseUrl" := FromEnvConfig (JStr "https://example.cypress.io") ]}).
Proof.
  split; [| split].
  - intros config. unfold e2e. apply lookup_insert_eq.
  - intros config key Hkey. unfold e2e.
    rewrite lookup_insert_ne by congruence. apply lookup_fmap.
  - intros e Hrequire.
    unfold envConfig, try_catch, lift_completion, bind, console_warn, object_literal, modify.
    rewrite Hrequire. simpl. eexists _, _. split; [reflexivity |].
    unfold e2e. simpl. now rewrite map_fmap_singleton.
Qed.

End E2eFacts.

Lemma e2e_keeps_setupNodeEvents_and_copies_the_rest_witness :
  E2eConfig.e2e (JObject 21 (<[ "baseUrl" := JStr "https://qa.yourapp.com" ]>
                             {[ "setupNodeEvents" := JStr "ignored" ]}))
    !! "baseUrl"
  = Some (E2eConfig.FromEnvConfig (JStr "https://qa.yourapp.com"))
  /\ exists config node',
       CypressConfig.envConfig require_qa_only None fresh_node = (Normal config, node')
       /\ E2eConfig.e2e config
          = <[ "setupNodeEvents" := E2eConfig.setupNodeEvents ]>
              {[ "baseUrl" := E2eConfig.FromEnvConfig (JStr "https://example.cypress.io") ]}.
Proof.
  split.
  - rewrite (proj1 (proj2 (e2e_keeps_setupNodeEvents_and_copies_the_rest require_qa_only None
                             fresh_node))) by discriminate.
    reflexivity.
  - apply (proj2 (proj2 (e2e_keeps_setupNodeEvents_and_copies_the_rest require_qa_only None
                           fresh_node))
             (Error "Cannot find module './cypress/config/dev.config.ts'")).
    reflexivity.
Defined.

(** ** The substring test of verifyHeader *)

Section SubstringFacts.
Import ApiHelper.

Lemma prefix_app (needle hay : string) :
  String.prefix needle hay = true <-> exists post, hay = needle ++ post.
Proof.
  revert needle. induction hay as [|c' hay IH]; intros needle; simpl.
  - destruct needle as [|c needle]; simpl.
    + split; [intros _; exists ""; reflexivity | reflexivity].
    + split; [discriminate |]. intros [post H]. discriminate.
  - destruct needle as [|c needle]; simpl.
    + split; [intros _; eexists; reflexivity | reflexivity].
    + destruct (Ascii.ascii_dec c c') as [<- | Hne].
      * rewrite IH. split.
        -- intros [post ->]. exists post. reflexivity.
        -- intros [post [= ->]]. exists post. reflexivity.
      * split; [discriminate |]. intros [post [= -> _]]. contradiction.
Qed.

Lemma includes_app (hay needle : string) :
  includes hay needle = true <-> exists pre post, hay = pre ++ needle ++ post.
Proof.
  induction hay as [|c hay IH].
  - change (includes "" needle) with (String.prefix needle "" || false).
    rewrite orb_false_r, prefix_app. split.
    + intros [post H]. exists "", post. exact H.
    + intros (pre & post & H). destruct pre as [|c pre]; [| discriminate].
      exists post. exact H.
  - change (includes (String c hay) needle)
      with (String.prefix needle (String c hay) || includes hay needle).
    rewrite orb_true_iff, IH, prefix_app. split.
    + intros [[post H] | (pre & post & ->)].
      * exists "", post. exact H.
      * exists (String c pre), post. reflexivity.
    + intros (pre & post & H). destruct pre as [|c' pre]; simpl in H.
      * left. exists post. exact H.
      * right. injection H as -> ->. exists pre, post. reflexivity.
Qed.

(** X12. For a header that is present, [verifyHeader] with a non-empty
    expected value passes exactly when the header's value is some text,
    then the expected value, then some text: the comparison is by
    containment, case-sensitive, and neither anchored nor trimmed; in
    particular the full value passes and a value in another casing may
    fail. *)
Theorem verifyHeader_expected_value_is_contained
    (response : ApiResponse) (headerName value expected : string) :
  headers response !! toLowerCase headerName = Some value ->
  expected <> "" ->
  (verifyHeader response headerName (Some expected) = Normal tt
   <-> exists pre post, value = pre ++ expected ++ post).
Proof.
  intros Hlookup Hne. rewrite verifyHeader_normal. split.
  - intros (value' & Hlookup' & Hincludes).
    rewrite Hlookup in Hlookup'. injection Hlookup' as <-.
    apply includes_app. now apply Hincludes.
  - intros Hcontained. exists value. split; [exact Hlookup |].
    intros expected' [= <-]. now apply includes_app.
Qed.

End SubstringFacts.

Lemma verifyHeader_expected_value_is_contained_witness :
  (ApiHelper.verifyHeader response_id_string "Content-Type" (Some "json") = Normal tt
   <-> exists pre post, "application/json; charset=utf-8" = pre ++ "json" ++ post)
  /\ ApiHelper.verifyHeader response_id_string "Content-Type" (Some "JSON")
     = Throw (Chai.AssertionError "").
Proof.
  split.
  - apply (verifyHeader_expected_value_is_contained response_id_string "Content-Type"
             "application/json; charset=utf-8" "json").
    + reflexivity.
    + discriminate.
  - reflexivity.
Defined.
